(** * mcp-server-kusto: the dispatch and query-transformation layer

    A shallow embedding of [src/mcp_server_kusto/server.py]: the
    connection-string choice made by [KustoDatabase.__init__], the seven
    gateway methods of [KustoDatabase], the tool catalogue and the two
    request handlers registered in [main].

    Python [str] values are modelled as [string]; one [ascii] stands for one
    code point below 256.  Exceptions, the log file and the requests that
    reach the Kusto service are threaded explicitly through a small state
    and error monad. *)

From stdpp Require Import base option list strings gmap.
From Stdlib Require Import Ascii String Bool Arith Lia.

Local Open Scope string_scope.

(** ** Python string methods used by the server *)

(** [s.startswith(prefix)] *)
Fixpoint startswith (s prefix : string) {struct prefix} : bool :=
  match prefix with
  | EmptyString => true
  | String p prefix' =>
      match s with
      | EmptyString => false
      | String c s' => if Ascii.eqb c p then startswith s' prefix' else false
      end
  end.

(** [old in s] *)
Fixpoint contains (s old : string) : bool :=
  startswith s old ||
  match s with
  | EmptyString => false
  | String _ s' => contains s' old
  end.

(** [c.isspace()] for a code point below 256: TAB, LF, VT, FF, CR, the four
    separators FS, GS, RS, US, the space, NEL and the no-break space. *)
Definition isspace (c : ascii) : bool :=
  let n := nat_of_ascii c in
  (((9 <=? n) && (n <=? 13)) || ((28 <=? n) && (n <=? 32))
   || (n =? 133) || (n =? 160))%nat.

(** [s.lstrip()] *)
Fixpoint lstrip (s : string) : string :=
  match s with
  | EmptyString => EmptyString
  | String c s' => if isspace c then lstrip s' else s
  end.

(** [s.rstrip()] *)
Fixpoint rstrip (s : string) : string :=
  match s with
  | EmptyString => EmptyString
  | String c s' =>
      match rstrip s' with
      | EmptyString => if isspace c then EmptyString else String c EmptyString
      | r => String c r
      end
  end.

(** The whitespace [s.lstrip()] removes. *)
Fixpoint leading_space (s : string) : string :=
  match s with
  | EmptyString => EmptyString
  | String c s' => if isspace c then String c (leading_space s') else EmptyString
  end.

(** The whitespace [s.rstrip()] removes. *)
Fixpoint trailing_space (s : string) : string :=
  match s with
  | EmptyString => EmptyString
  | String c s' =>
      match rstrip s with
      | EmptyString => s
      | _ => trailing_space s'
      end
  end.

(** [s.isspace() or s == ""] *)
Fixpoint all_space (s : string) : bool :=
  match s with
  | EmptyString => true
  | String c s' => isspace c && all_space s'
  end.

(** [s.strip()] *)
Definition strip (s : string) : string := rstrip (lstrip s).

(** [s.split(sep)] for a separator of one character: the pieces between the
    separators, of which there is always at least one. *)
Fixpoint split (s : string) (sep : ascii) : list string :=
  match s with
  | EmptyString => [EmptyString]
  | String c s' =>
      if Ascii.eqb c sep then EmptyString :: split s' sep
      else match split s' sep with
           | piece :: pieces => String c piece :: pieces
           | [] => [String c EmptyString]
           end
  end.

(** [s.replace("", new)]: [new] goes in front of every character and at the
    end. *)
Fixpoint replace_empty (s new : string) : string :=
  match s with
  | EmptyString => new
  | String c s' => new +:+ String c (replace_empty s' new)
  end.

(** The left-to-right scan of [s.replace(old, new)] for a non-empty [old]:
    [skip] counts the characters of the occurrence just replaced that are
    still to be passed over, so that occurrences never overlap. *)
Fixpoint replace_scan (old new : string) (skip : nat) (s : string) : string :=
  match s with
  | EmptyString => EmptyString
  | String c s' =>
      match skip with
      | S k => replace_scan old new k s'
      | O =>
          if startswith s old
          then new +:+ replace_scan old new (String.length old - 1) s'
          else String c (replace_scan old new 0 s')
      end
  end.

(** [s.replace(old, new)] *)
Definition replace (s old new : string) : string :=
  match old with
  | EmptyString => replace_empty s new
  | String _ _ => replace_scan old new 0 s
  end.

(** The one-character string holding a double quote. *)
Definition dquote : string := String (ascii_of_nat 34) EmptyString.

(** ** Exceptions, the log and the requests issued *)

(** The exceptions that occur; all of them derive from Python's [Exception].
    [KustoError] stands for whatever the SDK raises on a request (network,
    authentication, malformed query). *)
Inductive exn : Type :=
| ValueError (msg : string)
| IndexError (msg : string)
| KeyError (key : string)
| TypeError (msg : string)
| AttributeError (msg : string)
| KustoError (msg : string).

(** [str(e)] *)
Definition exn_str (e : exn) : string :=
  match e with
  | ValueError msg | IndexError msg | TypeError msg | AttributeError msg
  | KustoError msg => msg
  | KeyError key => "'" +:+ key +:+ "'"
  end.

(** The names the specification gives to the [ValueError]s of the server. *)
Definition ConfigurationError : exn :=
  ValueError "Client id, client secret and authority id are required".
Definition UnknownOperation (name : string) : exn :=
  ValueError ("Unknown tool: " +:+ name).
Definition MissingArgument (which : string) : exn :=
  ValueError ("Missing " +:+ which +:+ " argument").
Definition ForbiddenCommand : exn :=
  ValueError "Should not use management commands".

Inductive level : Type := DEBUG | ERROR.

(** What a call leaves behind: the records appended to the log file and the
    (database, command) pairs handed to [KustoClient.execute], oldest first. *)
Record World : Type := mkWorld {
  log : list (level * string);
  requests : list (string * string)
}.

Inductive outcome (A : Type) : Type :=
| Return (a : A)
| Raise (e : exn).
Arguments Return {A} a.
Arguments Raise {A} e.

Definition M (A : Type) : Type := World -> outcome A * World.

#[export] Instance M_ret : MRet M := fun A a w => (Return a, w).
#[export] Instance M_bind : MBind M := fun A B f m w =>
  match m w with
  | (Return a, w') => f a w'
  | (Raise e, w') => (Raise e, w')
  end.

Definition raise {A : Type} (e : exn) : M A := fun w => (Raise e, w).

(** [try: body except Exception as e: handler e] *)
Definition try_except {A : Type} (body : M A) (handler : exn -> M A) : M A :=
  fun w =>
    match body w with
    | (Return a, w') => (Return a, w')
    | (Raise e, w') => handler e w'
    end.

Definition logger_emit (lvl : level) (msg : string) : M unit :=
  fun w => (Return tt, mkWorld (log w ++ [(lvl, msg)]) (requests w)).
Definition logger_debug : string -> M unit := logger_emit DEBUG.
Definition logger_error : string -> M unit := logger_emit ERROR.

(** [xs[0]] *)
Definition getitem0 {A : Type} (xs : list A) : M A :=
  match xs with
  | x :: _ => mret x
  | [] => raise (IndexError "list index out of range")
  end.

(** [[f(x) for x in xs]] *)
Fixpoint comprehension {A B : Type} (f : A -> M B) (xs : list A) : M (list B) :=
  match xs with
  | [] => mret []
  | x :: xs' => y ← f x; ys ← comprehension f xs'; mret (y :: ys)
  end.

(** ** The Kusto SDK *)

Inductive KustoConnectionStringBuilder : Type :=
| with_no_authentication (cluster : string)
| with_aad_application_key_authentication
    (cluster client_id client_secret authority_id : string).

(** What the server uses of [azure.kusto.data], which is not part of the
    repository: the type of the scalars in a row, the answer of the service
    to one command, and the [str()] of the two kinds of value the gateway
    hands back. *)
Class KustoSDK : Type := {
  scalar : Type;
  (** [KustoClient(kcsb).execute(database, command)]: the tables of
      [response.primary_results], or the exception raised *)
  kusto_execute :
    KustoConnectionStringBuilder -> string -> string ->
    exn + list (list (list scalar));
  (** [str()] of a Python list of scalars *)
  str_list : list scalar -> string;
  (** [str()] of a [KustoResultTable] *)
  str_table : list (list scalar) -> string
}.

(** The two class methods of [KustoConnectionStringBuilder] are calls into
    the SDK: each checks and parses its arguments before it builds, and
    raises when it refuses them.  [None] stands for a call that raises
    nothing. *)
Class KustoBuilderSDK : Type := {
  (** the exception of [with_no_authentication(cluster)], if any *)
  no_authentication_refusal : string -> option exn;
  (** the exception of [with_aad_application_key_authentication(cluster,
      client_id, client_secret, authority_id)], if any *)
  aad_application_key_refusal : string -> string -> string -> string ->
                                option exn
}.

Section Server.
Context {sdk : KustoSDK}.
Context {builders : KustoBuilderSDK}.

(** A value returned by a gateway method, other than [None]. *)
Inductive rows : Type :=
| Names (tables : list scalar)
| PrimaryResult (table : list (list scalar)).

(** [str(results)] in [handle_call_tool] *)
Definition py_str (results : option rows) : string :=
  match results with
  | None => "None"
  | Some (Names tables) => str_list tables
  | Some (PrimaryResult table) => str_table table
  end.

(** ** class KustoDatabase *)

Record KustoDatabase : Type := { kcsb : KustoConnectionStringBuilder }.

(** The call [KustoConnectionStringBuilder.with_no_authentication(cluster)]:
    the exception of the SDK, or the configuration of that kind. *)
Definition build_with_no_authentication (cluster : string)
  : outcome KustoConnectionStringBuilder :=
  match no_authentication_refusal cluster with
  | Some e => Raise e
  | None => Return (with_no_authentication cluster)
  end.

(** The call [KustoConnectionStringBuilder.
    with_aad_application_key_authentication(cluster, client_id,
    client_secret, authority_id)]. *)
Definition build_with_aad_application_key_authentication
    (cluster client_id client_secret authority_id : string)
  : outcome KustoConnectionStringBuilder :=
  match aad_application_key_refusal cluster client_id client_secret
                                    authority_id with
  | Some e => Raise e
  | None => Return (with_aad_application_key_authentication
                      cluster client_id client_secret authority_id)
  end.

(** [KustoDatabase.__init__]; neither call of the builder is inside a
    [try], so what it raises leaves the constructor. *)
Definition KustoDatabase_init (cluster : string)
    (client_id client_secret authority_id : option string)
  : outcome KustoDatabase :=
  if startswith cluster "http://" then
    match build_with_no_authentication cluster with
    | Return built => Return {| kcsb := built |}
    | Raise e => Raise e
    end
  else
    match client_id, client_secret, authority_id with
    | Some client_id, Some client_secret, Some authority_id =>
        match build_with_aad_application_key_authentication
                cluster client_id client_secret authority_id with
        | Return built => Return {| kcsb := built |}
        | Raise e => Raise e
        end
    | _, _, _ =>
        Raise (ValueError "Client id, client secret and authority id are required")
    end.

(** [with KustoClient(self.kcsb) as kusto_client:
       response = kusto_client.execute(database, command)] followed by
    [response.primary_results] *)
Definition execute (self : KustoDatabase) (database command : string)
  : M (list (list (list scalar))) :=
  fun w =>
    let w' := mkWorld (log w) (requests w ++ [(database, command)]) in
    match kusto_execute (kcsb self) database command with
    | inl e => (Raise e, w')
    | inr primary_results => (Return primary_results, w')
    end.

(** [list_internal_tables] *)
Definition list_internal_tables (self : KustoDatabase) (database : string)
  : M (option rows) :=
  try_except
    (primary_results ← execute self database ".show tables";
     table ← getitem0 primary_results;
     tables ← comprehension getitem0 table;
     mret (Some (Names tables)))
    (fun e => logger_error ("Error listing tables: " +:+ exn_str e);;
              mret None).

Definition list_external_tables (self : KustoDatabase) (database : string)
  : M (option rows) :=
  try_except
    (primary_results ← execute self database ".show external tables";
     table ← getitem0 primary_results;
     tables ← comprehension getitem0 table;
     mret (Some (Names tables)))
    (fun e => logger_error ("Error listing external tables: " +:+ exn_str e);;
              mret None).

Definition list_materialized_views (self : KustoDatabase) (database : string)
  : M (option rows) :=
  try_except
    (primary_results ← execute self database ".show materialized-views";
     table ← getitem0 primary_results;
     tables ← comprehension getitem0 table;
     mret (Some (Names tables)))
    (fun e => logger_error ("Error listing materialized views: " +:+ exn_str e);;
              mret None).

Definition execute_query_internal_table (self : KustoDatabase)
    (database query : string) : M (option rows) :=
  logger_debug ("Executing query: " +:+ query);;
  if startswith query "." then
    raise (ValueError "Should not use management commands")
  else
    try_except
      (primary_results ← execute self database query;
       table ← getitem0 primary_results;
       mret (Some (PrimaryResult table)))
      (fun e => logger_error ("Error executing query: " +:+ exn_str e);;
                mret None).

(** [f'external_table("{table_name}")'] *)
Definition external_table (table_name : string) : string :=
  "external_table(" +:+ dquote +:+ table_name +:+ dquote +:+ ")".

(** Lines 113 and 114: the name in front of the first pipe, and the query
    with that name replaced. *)
Definition external_table_rewrite (query : string) : M string :=
  piece ← getitem0 (split query "|");
  let table_name := strip piece in
  mret (replace query table_name (external_table table_name)).

Definition execute_query_external_table (self : KustoDatabase)
    (database query : string) : M (option rows) :=
  logger_debug ("Executing query: " +:+ query);;
  if startswith query "." then
    raise (ValueError "Should not use management commands")
  else
    try_except
      (query ← external_table_rewrite query;
       primary_results ← execute self database query;
       table ← getitem0 primary_results;
       mret (Some (PrimaryResult table)))
      (fun e => logger_error ("Error executing query: " +:+ exn_str e);;
                mret None).

Definition retrieve_internal_table_schema (self : KustoDatabase)
    (database table : string) : M (option rows) :=
  try_except
    (primary_results ← execute self database (table +:+ " | getschema");
     table ← getitem0 primary_results;
     mret (Some (PrimaryResult table)))
    (fun e => logger_error ("Error retrieving table schema: " +:+ exn_str e);;
              mret None).

Definition retrieve_external_table_schema (self : KustoDatabase)
    (database table : string) : M (option rows) :=
  try_except
    (primary_results ←
       execute self database (external_table table +:+ " | getschema");
     table ← getitem0 primary_results;
     mret (Some (PrimaryResult table)))
    (fun e => logger_error ("Error retrieving table schema: " +:+ exn_str e);;
              mret None).

(** ** main: the tool catalogue and the two handlers *)

(** The [inputSchema] dictionary of a tool: its ["type"], the type of each
    property in the order written, and the ["required"] list. *)
Record InputSchema : Type := {
  schema_type : string;
  properties : list (string * string);
  required : list string
}.

(** [types.Tool] *)
Record Tool : Type := {
  name : string;
  description : string;
  inputSchema : InputSchema
}.

(** [types.TextContent] *)
Record TextContent : Type := { type : string; text : string }.

Definition tool_list : list Tool :=
  [ {| name := "list_internal_tables";
       description := "List all internal tables in the database";
       inputSchema :=
         {| schema_type := "object";
            properties := [("database", "string")];
            required := ["database"] |} |};
    {| name := "list_external_tables";
       description := "List all external tables in the database";
       inputSchema :=
         {| schema_type := "object";
            properties := [("database", "string")];
            required := ["database"] |} |};
    {| name := "list_materialized_views";
       description := "List all materialized views in the database";
       inputSchema :=
         {| schema_type := "object";
            properties := [("database", "string")];
            required := ["database"] |} |};
    {| name := "execute_query_internal_table";
       description :=
         "Execute a kql query to internal table or materialized view";
       inputSchema :=
         {| schema_type := "object";
            properties := [("database", "string"); ("query", "string")];
            required := ["database"; "query"] |} |};
    {| name := "execute_query_external_table";
       description := "Execute a kql query to external table";
       inputSchema :=
         {| schema_type := "object";
            properties := [("database", "string"); ("query", "string")];
            required := ["database"; "query"] |} |};
    {| name := "retrieve_internal_table_schema";
       description := "Get the schema of a table or materialized view";
       inputSchema :=
         {| schema_type := "object";
            properties := [("database", "string"); ("table", "string")];
            required := ["database"; "table"] |} |};
    {| name := "retrieve_external_table_schema";
       description := "Get the schema of an external table";
       inputSchema :=
         {| schema_type := "object";
            properties := [("database", "string"); ("table", "string")];
            required := ["database"; "table"] |} |} ].

Definition tool_name_list : list string := map name tool_list.

(** [handle_list_tools] *)
Definition handle_list_tools : M (list Tool) := mret tool_list.

(** The [arguments] of a call: [None] or a dictionary; the values are taken
    to be strings, the type every property of every schema declares. *)
Definition CallArguments : Type := option (gmap string string).

(** [not arguments]: true of [None] and of the empty dictionary *)
Definition falsy (arguments : CallArguments) : bool :=
  match arguments with
  | None => true
  | Some d => bool_decide (d = ∅)
  end.

(** [key in arguments], for [arguments] that are not [None] *)
Definition has_key (key : string) (arguments : CallArguments) : bool :=
  match arguments with
  | None => false
  | Some d => bool_decide (is_Some (d !! key))
  end.

(** [arguments[key]] *)
Definition getitem (arguments : CallArguments) (key : string) : M string :=
  match arguments with
  | None => raise (TypeError "'NoneType' object is not subscriptable")
  | Some d =>
      match d !! key with
      | Some v => mret v
      | None => raise (KeyError key)
      end
  end.

(** [[types.TextContent(type="text", text=str(results))]] *)
Definition text_content (results : option rows) : list TextContent :=
  [ {| type := "text"; text := py_str results |} ].

(** [handle_call_tool]; a Python function that reaches the end of its body
    returns [None]. *)
Definition handle_call_tool (kusto_database : KustoDatabase)
    (name : string) (arguments : CallArguments)
  : M (option (list TextContent)) :=
  if negb (bool_decide (name ∈ tool_name_list)) then
    raise (ValueError ("Unknown tool: " +:+ name))
  else if falsy arguments || negb (has_key "database" arguments) then
    raise (ValueError "Missing database argument")
  else
    database ← getitem arguments "database";
    if String.eqb name "list_internal_tables" then
      results ← list_internal_tables kusto_database database;
      mret (Some (text_content results))
    else if String.eqb name "list_external_tables" then
      results ← list_external_tables kusto_database database;
      mret (Some (text_content results))
    else if String.eqb name "list_materialized_views" then
      results ← list_materialized_views kusto_database database;
      mret (Some (text_content results))
    else if String.eqb name "execute_query_internal_table" then
      if negb (has_key "query" arguments) then
        raise (ValueError "Missing database or query argument")
      else
        query ← getitem arguments "query";
        results ← execute_query_internal_table kusto_database database query;
        mret (Some (text_content results))
    else if String.eqb name "execute_query_external_table" then
      if negb (has_key "query" arguments) then
        raise (ValueError "Missing database or query argument")
      else
        query ← getitem arguments "query";
        results ← execute_query_external_table kusto_database database query;
        mret (Some (text_content results))
    else if String.eqb name "retrieve_table_schema" then
      if negb (has_key "table" arguments) then
        raise (ValueError "Missing database or table argument")
      else
        table ← getitem arguments "table";
        results ← retrieve_internal_table_schema kusto_database database table;
        mret (Some (text_content results))
    else if String.eqb name "retrieve_external_table_schema" then
      if negb (has_key "table" arguments) then
        raise (ValueError "Missing database or table argument")
      else
        table ← getitem arguments "table";
        results ← retrieve_external_table_schema kusto_database database table;
        mret (Some (text_content results))
    else
      mret None.

(** One of the seven method calls a [KustoDatabase] offers. *)
Inductive gateway_call : Type :=
| ListInternalTables (database : string)
| ListExternalTables (database : string)
| ListMaterializedViews (database : string)
| ExecuteQueryInternalTable (database query : string)
| ExecuteQueryExternalTable (database query : string)
| RetrieveInternalTableSchema (database table : string)
| RetrieveExternalTableSchema (database table : string).

Definition call (self : KustoDatabase) (c : gateway_call) : M (option rows) :=
  match c with
  | ListInternalTables database => list_internal_tables self database
  | ListExternalTables database => list_external_tables self database
  | ListMaterializedViews database => list_materialized_views self database
  | ExecuteQueryInternalTable database query =>
      execute_query_internal_table self database query
  | ExecuteQueryExternalTable database query =>
      execute_query_external_table self database query
  | RetrieveInternalTableSchema database table =>
      retrieve_internal_table_schema self database table
  | RetrieveExternalTableSchema database table =>
      retrieve_external_table_schema self database table
  end.

(** What [handle_call_tool] makes of a gateway call in the branches that
    reach one: [results = ...; return [TextContent(text=str(results))]]. *)
Definition respond (m : M (option rows)) : M (option (list TextContent)) :=
  results ← m; mret (Some (text_content results)).

End Server.

(** ** Start-up *)

Section Startup.
Context {sdk : KustoSDK}.
Context {builders : KustoBuilderSDK}.

(** The database a gateway call names. *)
Definition database_of (c : gateway_call) : string :=
  match c with
  | ListInternalTables database
  | ListExternalTables database
  | ListMaterializedViews database
  | ExecuteQueryInternalTable database _
  | ExecuteQueryExternalTable database _
  | RetrieveInternalTableSchema database _
  | RetrieveExternalTableSchema database _ => database
  end.

(** What [main] of [server.py] hands to the protocol server: the two
    handlers it decorates, closed over the [kusto_database] it built. *)
Record Handlers : Type := {
  list_tools : M (list Tool);
  call_tool : string -> CallArguments -> M (option (list TextContent))
}.

(** [main(cluster, authority_id, client_id, client_secret)] of [server.py],
    up to the point where the server starts to run: an exception of
    [KustoDatabase(...)] ends it before any handler exists. *)
Definition server_main (cluster : string)
    (authority_id client_id client_secret : option string)
  : outcome Handlers :=
  match KustoDatabase_init cluster client_id client_secret authority_id with
  | Return kusto_database =>
      Return {| list_tools := handle_list_tools;
                call_tool := handle_call_tool kusto_database |}
  | Raise e => Raise e
  end.

(** The [args] that [parser.parse_args()] gives [main] of [__init__.py]:
    [--cluster] is required, an option that is not given is [None]. *)
Record Namespace : Type := {
  args_cluster : string;
  args_authority_id : option string;
  args_client_id : option string;
  args_client_secret : option string
}.

(** [main()] of [__init__.py], after the command line is parsed. *)
Definition cli_main (args : Namespace) : outcome Handlers :=
  server_main (args_cluster args) (args_authority_id args)
              (args_client_id args) (args_client_secret args).

End Startup.

(** ** Arguments of any type *)

(** [arguments] is a [dict[str, Any]]: a request can give an argument a
    value that is no [str] (a number, a boolean, [None], a list, a
    dictionary).  Such a value is given by the name of its type and by its
    [str()]. *)
Inductive value : Type :=
| PyStr (s : string)
| PyOther (type_name text : string).

(** [f"{v}"] *)
Definition value_str (v : value) : string :=
  match v with
  | PyStr s => s
  | PyOther _ text => text
  end.

(** [KustoClient(kcsb).execute(database, command)] for a [database] that is
    no [str], given by the name of its type and its [str()]. *)
Class KustoAnySDK (sdk : KustoSDK) : Type := {
  kusto_execute_other :
    KustoConnectionStringBuilder -> string -> string -> string ->
    exn + list (list (list scalar))
}.

Section AnyArguments.
Context {sdk : KustoSDK} {any_sdk : KustoAnySDK sdk}.

Definition execute_any (self : KustoDatabase) (database : value)
    (command : string) : M (list (list (list scalar))) :=
  match database with
  | PyStr database => execute self database command
  | PyOther type_name text =>
      fun w =>
        let w' := mkWorld (log w) (requests w ++ [(text, command)]) in
        match kusto_execute_other (kcsb self) type_name text command with
        | inl e => (Raise e, w')
        | inr primary_results => (Return primary_results, w')
        end
  end.

(** The seven methods of [KustoDatabase] on values of any type. *)
Definition list_internal_tables_any (self : KustoDatabase) (database : value)
  : M (option rows) :=
  try_except
    (primary_results ← execute_any self database ".show tables";
     table ← getitem0 primary_results;
     tables ← comprehension getitem0 table;
     mret (Some (Names tables)))
    (fun e => logger_error ("Error listing tables: " +:+ exn_str e);;
              mret None).

Definition list_external_tables_any (self : KustoDatabase) (database : value)
  : M (option rows) :=
  try_except
    (primary_results ← execute_any self database ".show external tables";
     table ← getitem0 primary_results;
     tables ← comprehension getitem0 table;
     mret (Some (Names tables)))
    (fun e => logger_error ("Error listing external tables: " +:+ exn_str e);;
              mret None).

Definition list_materialized_views_any (self : KustoDatabase)
    (database : value) : M (option rows) :=
  try_except
    (primary_results ← execute_any self database ".show materialized-views";
     table ← getitem0 primary_results;
     tables ← comprehension getitem0 table;
     mret (Some (Names tables)))
    (fun e => logger_error ("Error listing materialized views: " +:+ exn_str e);;
              mret None).

(** [query.startswith(".")] stands before the [try]: on a value without
    that method the [AttributeError] leaves the method. *)
Definition execute_query_internal_table_any (self : KustoDatabase)
    (database query : value) : M (option rows) :=
  logger_debug ("Executing query: " +:+ value_str query);;
  match query with
  | PyOther type_name _ =>
      raise (AttributeError
               ("'" +:+ type_name +:+ "' object has no attribute 'startswith'"))
  | PyStr query =>
      if startswith query "." then
        raise (ValueError "Should not use management commands")
      else
        try_except
          (primary_results ← execute_any self database query;
           table ← getitem0 primary_results;
           mret (Some (PrimaryResult table)))
          (fun e => logger_error ("Error executing query: " +:+ exn_str e);;
                    mret None)
  end.

Definition execute_query_external_table_any (self : KustoDatabase)
    (database query : value) : M (option rows) :=
  logger_debug ("Executing query: " +:+ value_str query);;
  match query with
  | PyOther type_name _ =>
      raise (AttributeError
               ("'" +:+ type_name +:+ "' object has no attribute 'startswith'"))
  | PyStr query =>
      if startswith query "." then
        raise (ValueError "Should not use management commands")
      else
        try_except
          (query ← external_table_rewrite query;
           primary_results ← execute_any self database query;
           table ← getitem0 primary_results;
           mret (Some (PrimaryResult table)))
          (fun e => logger_error ("Error executing query: " +:+ exn_str e);;
                    mret None)
  end.

Definition retrieve_internal_table_schema_any (self : KustoDatabase)
    (database table : value) : M (option rows) :=
  try_except
    (primary_results ←
       execute_any self database (value_str table +:+ " | getschema");
     table ← getitem0 primary_results;
     mret (Some (PrimaryResult table)))
    (fun e => logger_error ("Error retrieving table schema: " +:+ exn_str e);;
              mret None).

Definition retrieve_external_table_schema_any (self : KustoDatabase)
    (database table : value) : M (option rows) :=
  try_except
    (primary_results ←
       execute_any self database
         (external_table (value_str table) +:+ " | getschema");
     table ← getitem0 primary_results;
     mret (Some (PrimaryResult table)))
    (fun e => logger_error ("Error retrieving table schema: " +:+ exn_str e);;
              mret None).

(** [arguments] with values of any type. *)
Definition AnyArguments : Type := option (gmap string value).

Definition falsy_any (arguments : AnyArguments) : bool :=
  match arguments with
  | None => true
  | Some d => bool_decide (d = ∅)
  end.

Definition has_key_any (key : string) (arguments : AnyArguments) : bool :=
  match arguments with
  | None => false
  | Some d => bool_decide (is_Some (d !! key))
  end.

Definition getitem_any (arguments : AnyArguments) (key : string) : M value :=
  match arguments with
  | None => raise (TypeError "'NoneType' object is not subscriptable")
  | Some d =>
      match d !! key with
      | Some v => mret v
      | None => raise (KeyError key)
      end
  end.

(** [handle_call_tool] on arguments of any type. *)
Definition handle_call_tool_any (kusto_database : KustoDatabase)
    (name : string) (arguments : AnyArguments)
  : M (option (list TextContent)) :=
  if negb (bool_decide (name ∈ tool_name_list)) then
    raise (ValueError ("Unknown tool: " +:+ name))
  else if falsy_any arguments || negb (has_key_any "database" arguments) then
    raise (ValueError "Missing database argument")
  else
    database ← getitem_any arguments "database";
    if String.eqb name "list_internal_tables" then
      results ← list_internal_tables_any kusto_database database;
      mret (Some (text_content results))
    else if String.eqb name "list_external_tables" then
      results ← list_external_tables_any kusto_database database;
      mret (Some (text_content results))
    else if String.eqb name "list_materialized_views" then
      results ← list_materialized_views_any kusto_database database;
      mret (Some (text_content results))
    else if String.eqb name "execute_query_internal_table" then
      if negb (has_key_any "query" arguments) then
        raise (ValueError "Missing database or query argument")
      else
        query ← getitem_any arguments "query";
        results ← execute_query_internal_table_any kusto_database
                    database query;
        mret (Some (text_content results))
    else if String.eqb name "execute_query_external_table" then
      if negb (has_key_any "query" arguments) then
        raise (ValueError "Missing database or query argument")
      else
        query ← getitem_any arguments "query";
        results ← execute_query_external_table_any kusto_database
                    database query;
        mret (Some (text_content results))
    else if String.eqb name "retrieve_table_schema" then
      if negb (has_key_any "table" arguments) then
        raise (ValueError "Missing database or table argument")
      else
        table ← getitem_any arguments "table";
        results ← retrieve_internal_table_schema_any kusto_database
                    database table;
        mret (Some (text_content results))
    else if String.eqb name "retrieve_external_table_schema" then
      if negb (has_key_any "table" arguments) then
        raise (ValueError "Missing database or table argument")
      else
        table ← getitem_any arguments "table";
        results ← retrieve_external_table_schema_any kusto_database
                    database table;
        mret (Some (text_content results))
    else
      mret None.

End AnyArguments.

(** ** Two services for the examples *)

(** Scalars are strings; every command is answered with one table of one
    row holding the command itself. *)
Definition echo_sdk : KustoSDK := {|
  scalar := string;
  kusto_execute := fun _ _ command => inr [[[command]]];
  str_list := String.concat ", ";
  str_table := fun table => String.concat "; " (map (String.concat ", ") table)
|}.

(** A service that cannot be reached. *)
Definition unreachable_sdk : KustoSDK := {|
  scalar := string;
  kusto_execute := fun _ _ _ => inl (KustoError "connection refused");
  str_list := String.concat ", ";
  str_table := fun table => String.concat "; " (map (String.concat ", ") table)
|}.

(** A service whose answer depends on the database: none of the tables
    asked for in [Empty], a table with a row without columns in [Ragged],
    and two rows of two columns anywhere else. *)
Definition sample_sdk : KustoSDK := {|
  scalar := string;
  kusto_execute := fun _ database _ =>
    if String.eqb database "Empty" then inr []
    else if String.eqb database "Ragged" then inr [[["StormEvents"]; []]]
    else inr [[["StormEvents"; "dbo"]; ["Logs"; "dbo"]]; [["ignored"]]];
  str_list := String.concat ", ";
  str_table := fun table => String.concat "; " (map (String.concat ", ") table)
|}.

(** [value.strip() == ""], true of the empty string too *)
Definition is_blank (value : string) : bool := String.eqb (strip value) "".

(** The check azure-kusto-data makes on the three credentials: none of them
    may be empty or blank.  Endpoints are taken as they are. *)
Definition blank_refusing : KustoBuilderSDK := {|
  no_authentication_refusal := fun _ => None;
  aad_application_key_refusal := fun _ client_id client_secret authority_id =>
    if is_blank client_id || is_blank client_secret || is_blank authority_id
    then Some (ValueError "Should not be empty")
    else None
|}.

(** A service that refuses every database that is no [str]. *)
Definition str_only : KustoAnySDK echo_sdk := {|
  kusto_execute_other := fun _ _ _ _ => inl (KustoError "bad request")
|}.

Definition emulator : KustoDatabase :=
  {| kcsb := with_no_authentication "http://localhost:8080" |}.

Definition fresh : World := mkWorld [] [].

(** * Properties *)

(** ** Strings *)

Example startswith_dot : startswith ".show tables" "." = true.
Proof. reflexivity. Qed.

Example startswith_blank_dot : startswith " .show tables" "." = false.
Proof. reflexivity. Qed.

Example split_pipes : split "T | where x > 1 | take 5" "|" =
                      ["T "; " where x > 1 "; " take 5"].
Proof. reflexivity. Qed.

Example split_empty : split "" "|" = [""].
Proof. reflexivity. Qed.

Example strip_blanks :
  strip (String (ascii_of_nat 9) "  T  " +:+ String (ascii_of_nat 10) "") = "T".
Proof. reflexivity. Qed.

Example strip_only_blanks : strip "   " = "".
Proof. reflexivity. Qed.

Example replace_every_occurrence : replace "abcabc" "bc" "X" = "aXaX".
Proof. reflexivity. Qed.

Example replace_no_overlap : replace "aaa" "aa" "b" = "ba".
Proof. reflexivity. Qed.

Example replace_empty_name : replace "ab" "" "-" = "-a-b-".
Proof. reflexivity. Qed.

Lemma append_nil_l (s : string) : "" +:+ s = s.
Proof. reflexivity. Qed.

Lemma append_cons (c : ascii) (s t : string) :
  String c s +:+ t = String c (s +:+ t).
Proof. reflexivity. Qed.

Lemma append_empty_r (s : string) : s +:+ "" = s.
Proof.
  induction s as [|c s IH]; [reflexivity |].
  now rewrite append_cons, IH.
Qed.

Lemma append_assoc (a b c : string) : (a +:+ b) +:+ c = a +:+ (b +:+ c).
Proof.
  induction a as [|x a IH]; [reflexivity |].
  now rewrite !append_cons, IH.
Qed.

Lemma startswith_append (p s : string) : startswith (p +:+ s) p = true.
Proof.
  induction p as [|c p IH]; [reflexivity |].
  rewrite append_cons. simpl. now rewrite Ascii.eqb_refl.
Qed.

Lemma startswith_dot_inv (s : string) :
  startswith s "." = true -> exists s', s = String "." s'.
Proof.
  destruct s as [|c s']; simpl; [discriminate |].
  destruct (Ascii.eqb c ".") eqn:E; [| discriminate].
  apply Ascii.eqb_eq in E. subst c. now exists s'.
Qed.

(** Stripping leaves a leading character that is not whitespace in place. *)
Lemma rstrip_cons_nonspace (c : ascii) (s : string) :
  isspace c = false -> exists r, rstrip (String c s) = String c r.
Proof.
  intros Hc. simpl. destruct (rstrip s) as [|d r].
  - rewrite Hc. now exists "".
  - now exists (String d r).
Qed.

Lemma strip_cons_nonspace (c : ascii) (s : string) :
  isspace c = false -> exists r, strip (String c s) = String c r.
Proof.
  intros Hc. unfold strip. simpl lstrip. rewrite Hc.
  now apply rstrip_cons_nonspace.
Qed.

Lemma startswith_dot_strip (s : string) :
  startswith s "." = true -> startswith (strip s) "." = true.
Proof.
  intros H. destruct (startswith_dot_inv s H) as [s' ->].
  destruct (strip_cons_nonspace "." s' eq_refl) as [r ->].
  reflexivity.
Qed.

(** *** split *)

Lemma contains_char_cons (c sep : ascii) (s : string) :
  contains (String c s) (String sep "") = false ->
  Ascii.eqb c sep = false /\ contains s (String sep "") = false.
Proof.
  simpl. destruct (Ascii.eqb c sep); simpl; [discriminate | auto].
Qed.

Lemma split_no_separator (s : string) (sep : ascii) :
  contains s (String sep "") = false -> split s sep = [s].
Proof.
  induction s as [|c s IH]; intros H; [reflexivity |].
  apply contains_char_cons in H as [E H].
  simpl. now rewrite E, (IH H).
Qed.

Lemma split_first_piece (t rest : string) (sep : ascii) :
  contains t (String sep "") = false ->
  split (t +:+ String sep rest) sep = t :: split rest sep.
Proof.
  induction t as [|c t IH]; intros H.
  - rewrite append_nil_l. simpl. now rewrite Ascii.eqb_refl.
  - apply contains_char_cons in H as [E H].
    rewrite append_cons. simpl. now rewrite E, (IH H).
Qed.

Lemma contains_char_append (t u : string) (sep : ascii) :
  contains t (String sep "") = false ->
  contains u (String sep "") = false ->
  contains (t +:+ u) (String sep "") = false.
Proof.
  intros Ht Hu. induction t as [|c t IH]; [exact Hu |].
  apply contains_char_cons in Ht as [E Ht].
  rewrite append_cons. simpl. now rewrite E, (IH Ht).
Qed.

Lemma split_nonempty (s : string) (sep : ascii) : split s sep <> [].
Proof.
  destruct s as [|c s]; simpl; [discriminate |].
  destruct (Ascii.eqb c sep); [discriminate |].
  destruct (split s sep); discriminate.
Qed.

(** *** strip *)

Lemma lstrip_length (s : string) : String.length (lstrip s) <= String.length s.
Proof.
  induction s as [|c s IH]; simpl; [lia |].
  destruct (isspace c); simpl; lia.
Qed.

Lemma rstrip_length (s : string) : String.length (rstrip s) <= String.length s.
Proof.
  induction s as [|c s IH]; simpl; [lia |].
  destruct (rstrip s); [destruct (isspace c) |]; simpl in *; lia.
Qed.

Lemma strip_fixed_head (c : ascii) (s : string) :
  strip (String c s) = String c s -> isspace c = false.
Proof.
  destruct (isspace c) eqn:E; [| reflexivity].
  unfold strip. simpl. rewrite E. intros H.
  apply (f_equal String.length) in H. simpl in H.
  pose proof (rstrip_length (lstrip s)). pose proof (lstrip_length s). lia.
Qed.

Lemma strip_fixed_rstrip (s : string) : strip s = s -> rstrip s = s.
Proof.
  destruct s as [|c s]; [reflexivity |]. intros H.
  pose proof (strip_fixed_head c s H) as Hc.
  unfold strip in H. simpl lstrip in H. now rewrite Hc in H.
Qed.

Lemma rstrip_all_space (w : string) : all_space w = true -> rstrip w = "".
Proof.
  induction w as [|c w IH]; simpl; [reflexivity |].
  intros [Hc Hw]%andb_true_iff. now rewrite (IH Hw), Hc.
Qed.

Lemma rstrip_empty_all_space (s : string) : rstrip s = "" -> all_space s = true.
Proof.
  induction s as [|c s IH]; simpl; [reflexivity |].
  destruct (rstrip s); [| discriminate].
  destruct (isspace c); [| discriminate].
  intros _. now rewrite IH.
Qed.

Lemma lstrip_all_space (w : string) : all_space w = true -> lstrip w = "".
Proof.
  induction w as [|c w IH]; simpl; [reflexivity |].
  intros [Hc Hw]%andb_true_iff. now rewrite Hc, (IH Hw).
Qed.

Lemma rstrip_append_space (s w : string) :
  all_space w = true -> rstrip (s +:+ w) = rstrip s.
Proof.
  intros Hw. induction s as [|c s IH].
  - rewrite append_nil_l. now apply rstrip_all_space.
  - rewrite append_cons. simpl. now rewrite IH.
Qed.

(** A bare name followed by blanks strips back to the name. *)
Lemma strip_bare_name (t w : string) :
  t <> "" -> strip t = t -> all_space w = true -> strip (t +:+ w) = t.
Proof.
  destruct t as [|c t]; [congruence |]. intros _ H Hw.
  pose proof (strip_fixed_head c t H) as Hc.
  unfold strip. rewrite append_cons. simpl lstrip. rewrite Hc.
  rewrite <- append_cons, (rstrip_append_space _ _ Hw).
  now apply strip_fixed_rstrip.
Qed.

Lemma lstrip_decompose (s : string) : s = leading_space s +:+ lstrip s.
Proof.
  induction s as [|c s IH]; simpl; [reflexivity |].
  destruct (isspace c); [| reflexivity].
  now rewrite append_cons, <- IH.
Qed.

Lemma leading_space_all_space (s : string) : all_space (leading_space s) = true.
Proof.
  induction s as [|c s IH]; simpl; [reflexivity |].
  destruct (isspace c) eqn:E; simpl; [| reflexivity].
  now rewrite E, IH.
Qed.

Lemma lstrip_head (s t : string) (c : ascii) :
  lstrip s = String c t -> isspace c = false.
Proof.
  induction s as [|d s IH]; simpl; [discriminate |].
  destruct (isspace d) eqn:E; [exact IH |].
  intros [= <- _]. exact E.
Qed.

Lemma rstrip_decompose (s : string) : s = rstrip s +:+ trailing_space s.
Proof.
  induction s as [|c s IH]; [reflexivity |].
  simpl. destruct (rstrip s) as [|d r] eqn:Er.
  - destruct (isspace c).
    + reflexivity.
    + rewrite append_cons. now rewrite IH at 1.
  - rewrite append_cons. now rewrite IH at 1.
Qed.

Lemma trailing_space_cons (c : ascii) (s : string) :
  trailing_space (String c s) =
  match rstrip (String c s) with
  | EmptyString => String c s
  | String _ _ => trailing_space s
  end.
Proof. reflexivity. Qed.

Lemma trailing_space_all_space (s : string) :
  all_space (trailing_space s) = true.
Proof.
  induction s as [|c s IH]; [reflexivity |].
  rewrite trailing_space_cons.
  destruct (rstrip (String c s)) eqn:E; [| exact IH].
  now apply rstrip_empty_all_space.
Qed.

Lemma trailing_space_lstrip (s : string) :
  strip s <> "" -> trailing_space (lstrip s) = trailing_space s.
Proof.
  induction s as [|c s IH]; [reflexivity |].
  unfold strip. simpl lstrip. destruct (isspace c) eqn:Ec; [| reflexivity].
  intros H. rewrite (IH H), trailing_space_cons.
  destruct (rstrip (String c s)) eqn:E; [| reflexivity].
  apply rstrip_empty_all_space in E. simpl in E.
  apply andb_true_iff in E as [_ E].
  rewrite (lstrip_all_space _ E) in H. now contradiction H.
Qed.

(** Every string is its strip between the blanks removed on either side. *)
Lemma strip_decompose (s : string) :
  strip s <> "" ->
  s = leading_space s +:+ strip s +:+ trailing_space s.
Proof.
  intros H. rewrite <- (trailing_space_lstrip s H). unfold strip.
  rewrite <- rstrip_decompose. apply lstrip_decompose.
Qed.

Lemma strip_head (s r : string) (c : ascii) :
  strip s = String c r -> isspace c = false.
Proof.
  unfold strip. destruct (lstrip s) as [|d t] eqn:E; [discriminate |].
  pose proof (lstrip_head _ _ _ E) as Hd.
  destruct (rstrip_cons_nonspace d t Hd) as [r' ->].
  now intros [= <- _].
Qed.

(** *** replace *)

Lemma replace_scan_skip (old new p s : string) :
  replace_scan old new (String.length p) (p +:+ s) = replace_scan old new 0 s.
Proof.
  induction p as [|c p IH]; [reflexivity |].
  rewrite append_cons. simpl. exact IH.
Qed.

(** At an occurrence, the scan emits [new] and goes on behind it. *)
Lemma replace_scan_occurrence (c : ascii) (old' new s : string) :
  replace_scan (String c old') new 0 (String c old' +:+ s) =
  new +:+ replace_scan (String c old') new 0 s.
Proof.
  rewrite append_cons.
  change (replace_scan (String c old') new 0 (String c (old' +:+ s)))
    with (if startswith (String c old' +:+ s) (String c old')
          then new +:+ replace_scan (String c old') new
                         (String.length old' - 0) (old' +:+ s)
          else String c (replace_scan (String c old') new 0 (old' +:+ s))).
  now rewrite startswith_append, Nat.sub_0_r, replace_scan_skip.
Qed.

(** Without an occurrence, the scan copies the text. *)
Lemma replace_scan_absent (old new s : string) :
  contains s old = false -> replace_scan old new 0 s = s.
Proof.
  induction s as [|c s IH]; [reflexivity |].
  simpl contains. intros [H1 H2]%orb_false_iff.
  simpl replace_scan. now rewrite H1, (IH H2).
Qed.

(** Blanks in front of a name that starts with a non-blank are copied. *)
Lemma replace_scan_blanks (c : ascii) (old' new l t : string) :
  isspace c = false -> all_space l = true ->
  replace_scan (String c old') new 0 (l +:+ t) =
  l +:+ replace_scan (String c old') new 0 t.
Proof.
  intros Hc. induction l as [|a l IH]; [reflexivity |].
  simpl all_space. intros [Ha Hl]%andb_true_iff.
  rewrite !append_cons. simpl.
  destruct (Ascii.eqb a c) eqn:E.
  - apply Ascii.eqb_eq in E. congruence.
  - now rewrite (IH Hl).
Qed.

(** A name between blanks is the only occurrence of itself. *)
Lemma replace_padded (l name r new : string) :
  all_space l = true -> all_space r = true ->
  (exists c name', name = String c name' /\ isspace c = false) ->
  replace (l +:+ name +:+ r) name new = l +:+ new +:+ r.
Proof.
  intros Hl Hr (c & name' & -> & Hc). unfold replace.
  rewrite (replace_scan_blanks c name' new l _ Hc Hl).
  rewrite replace_scan_occurrence.
  rewrite <- (append_empty_r r) at 1.
  now rewrite (replace_scan_blanks c name' new r "" Hc Hr), append_empty_r.
Qed.

(** A name in front of a text it does not occur in. *)
Lemma replace_leading_name (name tail new : string) :
  name <> "" -> contains tail name = false ->
  replace (name +:+ tail) name new = new +:+ tail.
Proof.
  destruct name as [|c name']; [congruence |]. intros _ H. unfold replace.
  now rewrite replace_scan_occurrence, (replace_scan_absent _ _ _ H).
Qed.

(** ** The server *)

Section Properties.
Context {sdk : KustoSDK}.
Context {builders : KustoBuilderSDK}.

(** *** Dictionaries *)

Lemma has_key_present (key v : string) (d : gmap string string) :
  d !! key = Some v -> has_key key (Some d) = true.
Proof. intros H. unfold has_key. apply bool_decide_eq_true_2. eauto. Qed.

Lemma has_key_absent (key : string) (d : gmap string string) :
  d !! key = None -> has_key key (Some d) = false.
Proof.
  intros H. unfold has_key. apply bool_decide_eq_false_2.
  rewrite H. now intros [v Hv].
Qed.

Lemma falsy_present (key v : string) (d : gmap string string) :
  d !! key = Some v -> falsy (Some d) = false.
Proof.
  intros H. unfold falsy. apply bool_decide_eq_false_2.
  intros ->. now rewrite lookup_empty in H.
Qed.

Lemma getitem_present (key v : string) (d : gmap string string) (w : World) :
  d !! key = Some v -> getitem (Some d) key w = (Return v, w).
Proof. intros H. unfold getitem. now rewrite H. Qed.

Lemma missing_database (arguments : CallArguments) :
  arguments = None \/
  (exists d, arguments = Some d /\ d !! "database" = None) ->
  falsy arguments || negb (has_key "database" arguments) = true.
Proof.
  intros [-> | (d & -> & H)]; [reflexivity |].
  rewrite (has_key_absent _ _ H). apply orb_true_r.
Qed.

(** *** Connection configuration *)

(** C5, as the code has it: an endpoint that starts with [http://] goes to
    the builder without authentication whatever credentials come with it;
    any other endpoint fails with ConfigurationError when one of the three
    credentials is absent, before a builder is called, and goes to the
    application-key builder with the endpoint and the three credentials
    otherwise.  The configuration is built when the builder raises nothing,
    and what the builder raises leaves the constructor as it is. *)
Theorem KustoDatabase_init_cases (cluster : string)
    (client_id client_secret authority_id : option string) :
  (startswith cluster "http://" = true ->
   (no_authentication_refusal cluster = None ->
    KustoDatabase_init cluster client_id client_secret authority_id =
    Return {| kcsb := with_no_authentication cluster |}) /\
   (forall e, no_authentication_refusal cluster = Some e ->
    KustoDatabase_init cluster client_id client_secret authority_id =
    Raise e)) /\
  (startswith cluster "http://" = false ->
   client_id = None \/ client_secret = None \/ authority_id = None ->
   KustoDatabase_init cluster client_id client_secret authority_id =
   Raise ConfigurationError) /\
  (startswith cluster "http://" = false ->
   forall i s a,
     client_id = Some i -> client_secret = Some s -> authority_id = Some a ->
     (aad_application_key_refusal cluster i s a = None ->
      KustoDatabase_init cluster client_id client_secret authority_id =
      Return {| kcsb := with_aad_application_key_authentication
                          cluster i s a |}) /\
     (forall e, aad_application_key_refusal cluster i s a = Some e ->
      KustoDatabase_init cluster client_id client_secret authority_id =
      Raise e)).
Proof.
  unfold KustoDatabase_init, build_with_no_authentication,
    build_with_aad_application_key_authentication.
  split; [| split].
  - intros ->. split; [now intros -> | now intros e ->].
  - intros -> [-> | [-> | ->]]; [reflexivity | |].
    + now destruct client_id.
    + now destruct client_id, client_secret.
  - intros -> i s a -> -> ->. split; [now intros -> | now intros e ->].
Qed.

(** *** The catalogue *)

(** C9: listing the operations gives, from any state and without changing
    it, the same seven descriptors in the same order, each with its
    required arguments; a call made before does not change the answer. *)
Theorem handle_list_tools_catalogue (w : World) :
  handle_list_tools w = (Return tool_list, w) /\
  map (fun t => (name t, required (inputSchema t))) tool_list =
    [ ("list_internal_tables", ["database"]);
      ("list_external_tables", ["database"]);
      ("list_materialized_views", ["database"]);
      ("execute_query_internal_table", ["database"; "query"]);
      ("execute_query_external_table", ["database"; "query"]);
      ("retrieve_internal_table_schema", ["database"; "table"]);
      ("retrieve_external_table_schema", ["database"; "table"]) ] /\
  NoDup tool_name_list /\
  forall self called arguments,
    fst (handle_list_tools (snd (handle_call_tool self called arguments w))) =
    Return tool_list.
Proof.
  repeat split. compute_done.
Qed.

(** *** The dispatcher *)

(** C6: a name that is not in the catalogue fails with UnknownOperation,
    whatever the arguments are, and nothing else happens. *)
Theorem handle_call_tool_unknown (self : KustoDatabase) (called : string)
    (arguments : CallArguments) (w : World) :
  called ∉ tool_name_list ->
  handle_call_tool self called arguments w =
  (Raise (UnknownOperation called), w).
Proof.
  intros H. unfold handle_call_tool.
  now rewrite (bool_decide_eq_false_2 _ H).
Qed.

(** C7: a catalogue operation called without arguments, or with arguments
    that have no [database], fails with MissingArgument. *)
Theorem handle_call_tool_missing_database (self : KustoDatabase)
    (called : string) (arguments : CallArguments) (w : World) :
  called ∈ tool_name_list ->
  arguments = None \/
  (exists d, arguments = Some d /\ d !! "database" = None) ->
  handle_call_tool self called arguments w =
  (Raise (MissingArgument "database"), w).
Proof.
  intros H Ha. unfold handle_call_tool.
  rewrite (bool_decide_eq_true_2 _ H). simpl negb.
  now rewrite (missing_database _ Ha).
Qed.

(** *** The query guard *)

(** The guard on a text that itself starts with a dot (a case of a trimmed
    text that starts with one): the query is logged and then rejected with
    ForbiddenCommand by both query methods, and no request is issued. *)
Theorem management_commands_rejected (self : KustoDatabase)
    (database query : string) (w : World) :
  startswith query "." = true ->
  let w' := mkWorld (log w ++ [(DEBUG, "Executing query: " +:+ query)])
                    (requests w) in
  startswith (strip query) "." = true /\
  execute_query_internal_table self database query w =
    (Raise ForbiddenCommand, w') /\
  execute_query_external_table self database query w =
    (Raise ForbiddenCommand, w').
Proof.
  intros H w'. split; [now apply startswith_dot_strip |].
  unfold execute_query_internal_table, execute_query_external_table.
  unfold mbind, M_bind, logger_debug, logger_emit. cbv beta iota.
  now rewrite H.
Qed.

(** *** The external-table rewrite *)

Lemma contains_empty (s : string) : contains s "" = true.
Proof. now destruct s. Qed.

Lemma external_table_rewrite_value (query : string) (w : World) :
  external_table_rewrite query w =
  match split query "|" with
  | piece :: _ =>
      (Return (replace query (strip piece) (external_table (strip piece))), w)
  | [] => (Raise (IndexError "list index out of range"), w)
  end.
Proof.
  unfold external_table_rewrite, mbind, M_bind, getitem0.
  now destruct (split query "|").
Qed.

(** Lines 113 and 114 raise nothing: [split] always has a first piece. *)
Lemma external_table_rewrite_total (query : string) (w : World) :
  exists rewritten, external_table_rewrite query w = (Return rewritten, w).
Proof.
  rewrite external_table_rewrite_value.
  pose proof (split_nonempty query "|") as H.
  destruct (split query "|"); [congruence | now eexists].
Qed.

(** What [execute_query_external_table] does with a query that passes the
    guard and whose rewrite is known. *)
Lemma execute_query_external_table_requests (self : KustoDatabase)
    (database query rewritten : string) (w : World) :
  startswith query "." = false ->
  external_table_rewrite query
    (mkWorld (log w ++ [(DEBUG, "Executing query: " +:+ query)]) (requests w)) =
  (Return rewritten,
   mkWorld (log w ++ [(DEBUG, "Executing query: " +:+ query)]) (requests w)) ->
  requests (snd (execute_query_external_table self database query w)) =
  (requests w ++ [(database, rewritten)])%list.
Proof.
  intros Hdot Hrw. unfold execute_query_external_table.
  unfold mbind at 1. unfold M_bind at 1.
  unfold logger_debug, logger_emit. cbv beta iota. rewrite Hdot.
  unfold try_except, mbind, M_bind. rewrite Hrw.
  unfold execute. cbv beta iota zeta.
  destruct (kusto_execute (kcsb self) database rewritten) as [e | [|table ?]];
    reflexivity.
Qed.

(** C3, as the code has it: for a bare table name [T] (no pipe in it, no
    blank at either end) that does not occur in the text [ | where x > 1],
    the query [T | where x > 1] is rewritten to exactly
    [external_table("T") | where x > 1], and that is the command
    [execute_query_external_table] issues. *)
Theorem external_rewrite_bare_name (self : KustoDatabase)
    (database T : string) (w : World) :
  startswith (T +:+ " | where x > 1") "." = false ->
  strip T = T ->
  contains T "|" = false ->
  contains " | where x > 1" T = false ->
  external_table_rewrite (T +:+ " | where x > 1") w =
    (Return (external_table T +:+ " | where x > 1"), w) /\
  requests (snd (execute_query_external_table self database
                   (T +:+ " | where x > 1") w)) =
    (requests w ++ [(database, external_table T +:+ " | where x > 1")])%list.
Proof.
  intros Hdot Hbare Hpipe Habsent.
  assert (Hne : T <> "").
  { intros ->. now rewrite contains_empty in Habsent. }
  assert (Hrw : forall w0,
             external_table_rewrite (T +:+ " | where x > 1") w0 =
             (Return (external_table T +:+ " | where x > 1"), w0)).
  { intros w0. rewrite external_table_rewrite_value.
    change (T +:+ " | where x > 1")
      with (T +:+ " " +:+ String "|" " where x > 1") at 1.
    rewrite <- append_assoc, split_first_piece.
    - rewrite (strip_bare_name T " " Hne Hbare eq_refl).
      now rewrite (replace_leading_name T _ _ Hne Habsent).
    - now apply contains_char_append. }
  split; [apply Hrw |].
  apply execute_query_external_table_requests; [exact Hdot | apply Hrw].
Qed.

(** C10: a query without a pipe that passes the guard is rewritten all the
    same: the piece in front of the first pipe is the whole query, so the
    table name is the trimmed query, and the command issued is the query
    with every occurrence of that name replaced.  When the name is not
    empty its only occurrence is the one between the blanks. *)
Theorem external_rewrite_without_pipe (self : KustoDatabase)
    (database query : string) (w : World) :
  startswith query "." = false ->
  contains query "|" = false ->
  let table_name := strip query in
  let rewritten := replace query table_name (external_table table_name) in
  external_table_rewrite query w = (Return rewritten, w) /\
  requests (snd (execute_query_external_table self database query w)) =
    (requests w ++ [(database, rewritten)])%list /\
  (table_name <> "" ->
   rewritten =
   leading_space query +:+ external_table table_name +:+ trailing_space query).
Proof.
  intros Hdot Hpipe table_name rewritten.
  assert (Hrw : forall w0, external_table_rewrite query w0 = (Return rewritten, w0)).
  { intros w0. rewrite external_table_rewrite_value.
    now rewrite (split_no_separator _ _ Hpipe). }
  split; [apply Hrw |]. split.
  - apply execute_query_external_table_requests; [exact Hdot | apply Hrw].
  - intros Hne. subst rewritten.
    pose proof (strip_decompose query Hne) as Hq. fold table_name in Hq.
    destruct table_name as [|c name'] eqn:E; [congruence |].
    pose proof (strip_head _ _ _ E) as Hc.
    rewrite Hq at 1. apply replace_padded.
    + apply leading_space_all_space.
    + apply trailing_space_all_space.
    + now exists c, name'.
Qed.

(** *** The gateway *)

Lemma comprehension_getitem0_world {A : Type} (table : list (list A))
    (w : World) :
  exists o, comprehension getitem0 table w = (o, w).
Proof.
  induction table as [|row table [o IH]]; [now eexists |].
  simpl. unfold mbind, M_bind.
  destruct row as [|x row]; [now eexists |].
  simpl. rewrite IH. destruct o; now eexists.
Qed.

(** The listing methods: one request, and [None] with an error record when
    the service raises. *)
Lemma listing_body (self : KustoDatabase) (database command label : string)
    (w : World) :
  let m :=
    try_except
      (primary_results ← execute self database command;
       table ← getitem0 primary_results;
       tables ← comprehension getitem0 table;
       mret (Some (Names tables)))
      (fun e => logger_error (label +:+ exn_str e);; mret None) in
  requests (snd (m w)) = (requests w ++ [(database, command)])%list /\
  forall e,
    kusto_execute (kcsb self) database command = inl e ->
    m w = (Return None,
           mkWorld (log w ++ [(ERROR, label +:+ exn_str e)])
                   (requests w ++ [(database, command)])).
Proof.
  intros m. subst m. unfold try_except, mbind, M_bind, execute.
  cbv beta zeta.
  destruct (kusto_execute (kcsb self) database command)
    as [e0 | [|table rest]].
  - split; [reflexivity |]. now intros e [= ->].
  - split; [reflexivity | discriminate].
  - split; [| discriminate]. simpl.
    destruct (comprehension_getitem0_world table
                (mkWorld (log w) (requests w ++ [(database, command)])))
      as [o ->].
    now destruct o.
Qed.

(** The query and schema methods behind the guard. *)
Lemma table_body (self : KustoDatabase) (database command label : string)
    (w : World) :
  let m :=
    try_except
      (primary_results ← execute self database command;
       table ← getitem0 primary_results;
       mret (Some (PrimaryResult table)))
      (fun e => logger_error (label +:+ exn_str e);; mret None) in
  requests (snd (m w)) = (requests w ++ [(database, command)])%list /\
  forall e,
    kusto_execute (kcsb self) database command = inl e ->
    m w = (Return None,
           mkWorld (log w ++ [(ERROR, label +:+ exn_str e)])
                   (requests w ++ [(database, command)])).
Proof.
  intros m. subst m. unfold try_except, mbind, M_bind, execute.
  cbv beta zeta.
  destruct (kusto_execute (kcsb self) database command)
    as [e0 | [|table rest]].
  - split; [reflexivity |]. now intros e [= ->].
  - split; [reflexivity | discriminate].
  - split; [reflexivity | discriminate].
Qed.

Lemma request_inv (rs : list (string * string)) (a b : string * string) :
  (rs ++ [a])%list = (rs ++ [b])%list -> a = b.
Proof. intros H. apply app_inv_head in H. now injection H. Qed.

Lemma request_fresh (rs : list (string * string)) (a : string * string) :
  rs <> (rs ++ [a])%list.
Proof.
  intros H. apply (f_equal (@List.length _)) in H.
  rewrite length_app in H. simpl in H. lia.
Qed.

Lemma execute_query_internal_table_unfold (self : KustoDatabase)
    (database query : string) (w : World) :
  execute_query_internal_table self database query w =
  let w1 := mkWorld (log w ++ [(DEBUG, "Executing query: " +:+ query)])
                    (requests w) in
  if startswith query "." then (Raise ForbiddenCommand, w1)
  else
    try_except
      (primary_results ← execute self database query;
       table ← getitem0 primary_results;
       mret (Some (PrimaryResult table)))
      (fun e => logger_error ("Error executing query: " +:+ exn_str e);;
                mret None) w1.
Proof.
  unfold execute_query_internal_table.
  unfold mbind at 1. unfold M_bind at 1.
  unfold logger_debug, logger_emit. cbv beta iota zeta.
  now destruct (startswith query ".").
Qed.

Lemma execute_query_external_table_unfold (self : KustoDatabase)
    (database query : string) (w : World) :
  execute_query_external_table self database query w =
  let w1 := mkWorld (log w ++ [(DEBUG, "Executing query: " +:+ query)])
                    (requests w) in
  if startswith query "." then (Raise ForbiddenCommand, w1)
  else
    match external_table_rewrite query w1 with
    | (Return rewritten, w2) =>
        try_except
          (primary_results ← execute self database rewritten;
           table ← getitem0 primary_results;
           mret (Some (PrimaryResult table)))
          (fun e => logger_error ("Error executing query: " +:+ exn_str e);;
                    mret None) w2
    | (Raise e, w2) =>
        (logger_error ("Error executing query: " +:+ exn_str e);;
         mret None) w2
    end.
Proof.
  unfold execute_query_external_table.
  unfold mbind at 1. unfold M_bind at 1.
  unfold logger_debug, logger_emit. cbv beta iota zeta.
  destruct (startswith query "."); [reflexivity |].
  unfold try_except at 1. unfold mbind at 1. unfold M_bind at 1.
  destruct (external_table_rewrite query _) as [[rewritten | e] w2];
    [| reflexivity].
  unfold try_except, mbind, M_bind.
  now destruct (execute self database rewritten w2) as [[? | ?] ?].
Qed.

(** C8: whichever gateway method is called, when the request it issues
    makes the service raise, the method returns [None] instead of raising,
    and the last record it leaves in the log is an error record that ends
    with the text of the exception. *)
Theorem gateway_swallows_failures (self : KustoDatabase) (c : gateway_call)
    (w : World) (database command : string) (e : exn) :
  requests (snd (call self c w)) = (requests w ++ [(database, command)])%list ->
  kusto_execute (kcsb self) database command = inl e ->
  fst (call self c w) = Return None /\
  exists earlier label,
    log (snd (call self c w)) =
    (log w ++ earlier ++ [(ERROR, label +:+ exn_str e)])%list.
Proof.
  intros Hreq Hexec.
  destruct c as [db | db | db | db query | db query | db table | db table];
    unfold call in *.
  - destruct (listing_body self db ".show tables"
                "Error listing tables: " w) as [Hr Hf].
    cbv zeta in Hr, Hf. unfold list_internal_tables in *.
    rewrite Hr in Hreq. apply request_inv in Hreq as [= -> <-].
    rewrite (Hf e Hexec). split; [reflexivity |]. simpl; now eexists [], _.
  - destruct (listing_body self db ".show external tables"
                "Error listing external tables: " w) as [Hr Hf].
    cbv zeta in Hr, Hf. unfold list_external_tables in *.
    rewrite Hr in Hreq. apply request_inv in Hreq as [= -> <-].
    rewrite (Hf e Hexec). split; [reflexivity |]. simpl; now eexists [], _.
  - destruct (listing_body self db ".show materialized-views"
                "Error listing materialized views: " w) as [Hr Hf].
    cbv zeta in Hr, Hf. unfold list_materialized_views in *.
    rewrite Hr in Hreq. apply request_inv in Hreq as [= -> <-].
    rewrite (Hf e Hexec). split; [reflexivity |]. simpl; now eexists [], _.
  - rewrite execute_query_internal_table_unfold in *. cbv zeta in *.
    destruct (startswith query ".").
    { now apply request_fresh in Hreq. }
    destruct (table_body self db query "Error executing query: "
                (mkWorld (log w ++ [(DEBUG, "Executing query: " +:+ query)])
                         (requests w))) as [Hr Hf].
    cbv zeta in Hr, Hf. rewrite Hr in Hreq. simpl in Hreq.
    apply request_inv in Hreq as [= -> ->].
    rewrite (Hf e Hexec). split; [reflexivity |].
    exists [(DEBUG, "Executing query: " +:+ command)], "Error executing query: ".
    simpl. now rewrite <- app_assoc.
  - rewrite execute_query_external_table_unfold in *. cbv zeta in *.
    destruct (startswith query ".").
    { now apply request_fresh in Hreq. }
    rewrite external_table_rewrite_value in *.
    destruct (split query "|") as [|piece pieces].
    { now apply request_fresh in Hreq. }
    destruct (table_body self db
                (replace query (strip piece) (external_table (strip piece)))
                "Error executing query: "
                (mkWorld (log w ++ [(DEBUG, "Executing query: " +:+ query)])
                         (requests w))) as [Hr Hf].
    cbv zeta in Hr, Hf. rewrite Hr in Hreq. simpl in Hreq.
    apply request_inv in Hreq as [= -> <-].
    rewrite (Hf e Hexec). split; [reflexivity |].
    exists [(DEBUG, "Executing query: " +:+ query)], "Error executing query: ".
    simpl. now rewrite <- app_assoc.
  - destruct (table_body self db (table +:+ " | getschema")
                "Error retrieving table schema: " w) as [Hr Hf].
    cbv zeta in Hr, Hf. unfold retrieve_internal_table_schema in *.
    rewrite Hr in Hreq. apply request_inv in Hreq as [= -> <-].
    rewrite (Hf e Hexec). split; [reflexivity |]. simpl; now eexists [], _.
  - destruct (table_body self db (external_table table +:+ " | getschema")
                "Error retrieving table schema: " w) as [Hr Hf].
    cbv zeta in Hr, Hf. unfold retrieve_external_table_schema in *.
    rewrite Hr in Hreq. apply request_inv in Hreq as [= -> <-].
    rewrite (Hf e Hexec). split; [reflexivity |]. simpl; now eexists [], _.
Qed.

(** *** Dispatch *)

(** Past the two checks every call goes through: the name is in the
    catalogue and the dictionary [d] has a [database]. *)
Ltac enter_dispatch Hdb :=
  unfold handle_call_tool;
  rewrite bool_decide_eq_true_2 by compute_done;
  rewrite (falsy_present _ _ _ Hdb), (has_key_present _ _ _ Hdb);
  cbv beta iota delta [negb orb];
  unfold mbind at 1; unfold M_bind at 1;
  rewrite (getitem_present _ _ _ _ Hdb);
  cbv beta iota delta [String.eqb Ascii.eqb Bool.eqb].

Ltac enter_branch Harg :=
  rewrite (has_key_present _ _ _ Harg); cbv beta iota delta [negb];
  unfold mbind at 1; unfold M_bind at 1;
  rewrite (getitem_present _ _ _ _ Harg); cbv beta iota.

(** The six names the chain of comparisons knows: the call goes to the
    method of that name and its result comes back as one text item. *)
Lemma handle_call_tool_routes (self : KustoDatabase)
    (d : gmap string string) (database : string) (w : World) :
  d !! "database" = Some database ->
  handle_call_tool self "list_internal_tables" (Some d) w =
    respond (list_internal_tables self database) w /\
  handle_call_tool self "list_external_tables" (Some d) w =
    respond (list_external_tables self database) w /\
  handle_call_tool self "list_materialized_views" (Some d) w =
    respond (list_materialized_views self database) w /\
  (forall query, d !! "query" = Some query ->
     handle_call_tool self "execute_query_internal_table" (Some d) w =
       respond (execute_query_internal_table self database query) w /\
     handle_call_tool self "execute_query_external_table" (Some d) w =
       respond (execute_query_external_table self database query) w) /\
  (forall table, d !! "table" = Some table ->
     handle_call_tool self "retrieve_external_table_schema" (Some d) w =
       respond (retrieve_external_table_schema self database table) w).
Proof.
  intros Hdb. split; [| split; [| split; [| split]]].
  - now enter_dispatch Hdb.
  - now enter_dispatch Hdb.
  - now enter_dispatch Hdb.
  - intros query Hq. split; enter_dispatch Hdb; now enter_branch Hq.
  - intros table Ht. enter_dispatch Hdb. now enter_branch Ht.
Qed.

(** The three query and schema names the chain knows check their own
    argument. *)
Lemma handle_call_tool_missing_specific (self : KustoDatabase)
    (d : gmap string string) (database : string) (w : World) :
  d !! "database" = Some database ->
  (d !! "query" = None ->
   handle_call_tool self "execute_query_internal_table" (Some d) w =
     (Raise (MissingArgument "database or query"), w) /\
   handle_call_tool self "execute_query_external_table" (Some d) w =
     (Raise (MissingArgument "database or query"), w)) /\
  (d !! "table" = None ->
   handle_call_tool self "retrieve_external_table_schema" (Some d) w =
     (Raise (MissingArgument "database or table"), w)).
Proof.
  intros Hdb. split.
  - intros Hq. split; enter_dispatch Hdb; now rewrite (has_key_absent _ _ Hq).
  - intros Ht. enter_dispatch Hdb. now rewrite (has_key_absent _ _ Ht).
Qed.

(** C2, where the code departs from it: [retrieve_internal_table_schema]
    is in the catalogue, but the chain of comparisons tests for
    [retrieve_table_schema]; a call with [database] and [table] present
    reaches no method, issues no request and returns [None] instead of a
    text item. *)
Theorem retrieve_internal_table_schema_unrouted (self : KustoDatabase)
    (database table : string) (extra : gmap string string) (w : World) :
  "retrieve_internal_table_schema" ∈ tool_name_list /\
  handle_call_tool self "retrieve_internal_table_schema"
    (Some (<["database" := database]> (<["table" := table]> extra))) w =
  (Return None, w).
Proof.
  split; [compute_done |].
  assert (Hdb : (<["database" := database]> (<["table" := table]> extra))
                !! "database" = Some database) by apply lookup_insert_eq.
  now enter_dispatch Hdb.
Qed.

(** C4, where the code departs from it: called with a [database] and no
    [table], [retrieve_internal_table_schema] does not fail with
    MissingArgument; the call returns [None]. *)
Theorem retrieve_internal_table_schema_unchecked (self : KustoDatabase)
    (database : string) (extra : gmap string string) (w : World) :
  (<["database" := database]> (delete "table" extra)) !! "table" = None /\
  handle_call_tool self "retrieve_internal_table_schema"
    (Some (<["database" := database]> (delete "table" extra))) w =
  (Return None, w).
Proof.
  split.
  - rewrite lookup_insert_ne by discriminate. apply lookup_delete_eq.
  - assert (Hdb : (<["database" := database]> (delete "table" extra))
                  !! "database" = Some database) by apply lookup_insert_eq.
    now enter_dispatch Hdb.
Qed.

End Properties.

(** ** The properties on concrete calls *)

(** C1, where the code departs from it: after trimming, [ .show tables]
    starts with a dot and is a management command, yet the guard, which
    tests the text as it comes, lets it pass: neither query method rejects
    it and both hand it to the service. *)
Lemma padded_management_command_reaches_service :
  startswith (strip " .show tables") "." = true /\
  execute_query_internal_table (sdk := echo_sdk) emulator "Contoso"
      " .show tables" fresh =
    (Return (Some (PrimaryResult (sdk := echo_sdk) [[" .show tables"]])),
     mkWorld [(DEBUG, "Executing query:  .show tables")]
             [("Contoso", " .show tables")]) /\
  execute_query_external_table (sdk := echo_sdk) emulator "Contoso"
      " .show tables" fresh =
    (Return (Some (PrimaryResult (sdk := echo_sdk)
                     [[" " +:+ external_table ".show tables"]])),
     mkWorld [(DEBUG, "Executing query:  .show tables")]
             [("Contoso", " " +:+ external_table ".show tables")]).
Proof. repeat split. Qed.

Lemma management_commands_rejected_witness :
  startswith (strip ".show tables") "." = true /\
  execute_query_internal_table (sdk := echo_sdk) emulator "Contoso"
      ".show tables" fresh =
    (Raise ForbiddenCommand,
     mkWorld [(DEBUG, "Executing query: .show tables")] []) /\
  execute_query_external_table (sdk := echo_sdk) emulator "Contoso"
      ".show tables" fresh =
    (Raise ForbiddenCommand,
     mkWorld [(DEBUG, "Executing query: .show tables")] []).
Proof.
  exact (management_commands_rejected (sdk := echo_sdk) emulator "Contoso"
           ".show tables" fresh eq_refl).
Defined.

(** C3 as stated fails: the table name [x] occurs again in the filter, and
    the rewrite replaces it there too. *)
Lemma recurring_table_name_rewritten_twice :
  startswith "x | where x > 1" "." = false /\
  external_table_rewrite "x | where x > 1" fresh =
    (Return (external_table "x" +:+ " | where " +:+ external_table "x"
             +:+ " > 1"), fresh) /\
  external_table "x" +:+ " | where " +:+ external_table "x" +:+ " > 1" <>
  external_table "x" +:+ " | where x > 1".
Proof. repeat split. discriminate. Qed.

Lemma external_rewrite_bare_name_witness :
  external_table_rewrite "StormEvents | where x > 1" fresh =
    (Return (external_table "StormEvents" +:+ " | where x > 1"), fresh) /\
  requests (snd (execute_query_external_table (sdk := echo_sdk) emulator
                   "Contoso" "StormEvents | where x > 1" fresh)) =
    [("Contoso", external_table "StormEvents" +:+ " | where x > 1")].
Proof.
  exact (external_rewrite_bare_name (sdk := echo_sdk) emulator "Contoso"
           "StormEvents" fresh eq_refl eq_refl eq_refl eq_refl).
Defined.

(** C5 as stated fails: all three credentials are present, the client id
    is the empty string, and the builder refuses it; the constructor
    neither succeeds nor fails with ConfigurationError. *)
Lemma blank_credential_refused :
  startswith "https://cluster.kusto.windows.net" "http://" = false /\
  KustoDatabase_init (builders := blank_refusing)
      "https://cluster.kusto.windows.net"
      (Some "") (Some "secret") (Some "tenant") =
    Raise (ValueError "Should not be empty") /\
  ValueError "Should not be empty" <> ConfigurationError.
Proof. repeat split. discriminate. Qed.

Lemma KustoDatabase_init_cases_witness :
  KustoDatabase_init (builders := blank_refusing)
      "http://localhost:8080" None None None =
    Return {| kcsb := with_no_authentication "http://localhost:8080" |} /\
  KustoDatabase_init (builders := blank_refusing)
      "https://cluster.kusto.windows.net" None None None =
    Raise ConfigurationError /\
  KustoDatabase_init (builders := blank_refusing)
      "https://cluster.kusto.windows.net"
      (Some "app") (Some "secret") (Some "tenant") =
    Return {| kcsb := with_aad_application_key_authentication
                        "https://cluster.kusto.windows.net"
                        "app" "secret" "tenant" |} /\
  KustoDatabase_init (builders := blank_refusing)
      "https://cluster.kusto.windows.net"
      (Some "app") (Some "  ") (Some "tenant") =
    Raise (ValueError "Should not be empty").
Proof.
  split; [| split; [| split]].
  - exact (proj1 (proj1 (KustoDatabase_init_cases (builders := blank_refusing)
                    "http://localhost:8080" None None None) eq_refl)
             eq_refl).
  - exact (proj1 (proj2 (KustoDatabase_init_cases (builders := blank_refusing)
                           "https://cluster.kusto.windows.net"
                           None None None)) eq_refl (or_introl eq_refl)).
  - exact (proj1 (proj2 (proj2 (KustoDatabase_init_cases
                                  (builders := blank_refusing)
                                  "https://cluster.kusto.windows.net"
                                  (Some "app") (Some "secret") (Some "tenant")))
                    eq_refl "app" "secret" "tenant" eq_refl eq_refl eq_refl)
             eq_refl).
  - exact (proj2 (proj2 (proj2 (KustoDatabase_init_cases
                                  (builders := blank_refusing)
                                  "https://cluster.kusto.windows.net"
                                  (Some "app") (Some "  ") (Some "tenant")))
                    eq_refl "app" "  " "tenant" eq_refl eq_refl eq_refl)
             (ValueError "Should not be empty") eq_refl).
Defined.

Lemma handle_call_tool_unknown_witness :
  handle_call_tool (sdk := echo_sdk) emulator "retrieve_table_schema"
      None fresh =
    (Raise (UnknownOperation "retrieve_table_schema"), fresh) /\
  handle_call_tool (sdk := echo_sdk) emulator "retrieve_table_schema"
      (Some {[ "database" := "Contoso"; "table" := "StormEvents" ]}) fresh =
    (Raise (UnknownOperation "retrieve_table_schema"), fresh).
Proof.
  assert (H : "retrieve_table_schema" ∉ tool_name_list) by compute_done.
  split.
  - exact (handle_call_tool_unknown (sdk := echo_sdk) emulator
             "retrieve_table_schema" None fresh H).
  - exact (handle_call_tool_unknown (sdk := echo_sdk) emulator
             "retrieve_table_schema"
             (Some {[ "database" := "Contoso"; "table" := "StormEvents" ]})
             fresh H).
Defined.

Lemma handle_call_tool_missing_database_witness :
  handle_call_tool (sdk := echo_sdk) emulator "list_internal_tables"
      None fresh =
    (Raise (MissingArgument "database"), fresh) /\
  handle_call_tool (sdk := echo_sdk) emulator "execute_query_internal_table"
      (Some {[ "query" := "StormEvents | take 1" ]}) fresh =
    (Raise (MissingArgument "database"), fresh).
Proof.
  split.
  - apply (handle_call_tool_missing_database (sdk := echo_sdk)).
    + compute_done.
    + left. reflexivity.
  - apply (handle_call_tool_missing_database (sdk := echo_sdk)).
    + compute_done.
    + right. eexists. split; [reflexivity | compute_done].
Defined.

Lemma gateway_swallows_failures_witness :
  fst (call (sdk := unreachable_sdk) emulator
         (ListInternalTables "Contoso") fresh) = Return None /\
  exists earlier label,
    log (snd (call (sdk := unreachable_sdk) emulator
                (ListInternalTables "Contoso") fresh)) =
    (log fresh ++ earlier ++
     [(ERROR, label +:+ exn_str (KustoError "connection refused"))])%list.
Proof.
  exact (gateway_swallows_failures (sdk := unreachable_sdk) emulator
           (ListInternalTables "Contoso") fresh "Contoso" ".show tables"
           (KustoError "connection refused") eq_refl eq_refl).
Defined.

Lemma external_rewrite_without_pipe_witness :
  external_table_rewrite "  StormEvents " fresh =
    (Return ("  " +:+ external_table "StormEvents" +:+ " "), fresh) /\
  requests (snd (execute_query_external_table (sdk := echo_sdk) emulator
                   "Contoso" "  StormEvents " fresh)) =
    [("Contoso", "  " +:+ external_table "StormEvents" +:+ " ")].
Proof.
  pose proof (external_rewrite_without_pipe (sdk := echo_sdk) emulator
                "Contoso" "  StormEvents " fresh eq_refl eq_refl) as H.
  cbv zeta in H. destruct H as (H1 & H2 & H3).
  split; [exact H1 | exact H2].
Defined.

(** ** Further properties of the gateway and the dispatcher *)

Section Behaviour.
Context {sdk : KustoSDK}.
Context {builders : KustoBuilderSDK}.

(** *** Answers of the service *)

Lemma comprehension_first_column {A : Type} (cells : list (A * list A))
    (w : World) :
  comprehension getitem0 (map (fun p => p.1 :: p.2) cells) w =
  (Return (map fst cells), w).
Proof.
  induction cells as [|[x row] cells IH]; [reflexivity |].
  simpl. unfold mbind, M_bind. simpl. now rewrite IH.
Qed.

Lemma comprehension_empty_row {A : Type} (table : list (list A)) (w : World) :
  [] ∈ table ->
  comprehension getitem0 table w =
  (Raise (IndexError "list index out of range"), w).
Proof.
  induction table as [|row table IH]; intros H.
  - now apply elem_of_nil in H.
  - destruct row as [|x row]; [reflexivity |].
    apply elem_of_cons in H as [H | H]; [discriminate |].
    simpl. unfold mbind, M_bind. simpl. now rewrite (IH H).
Qed.

(** What a listing method makes of an answer of the service. *)
Lemma listing_body_answer (self : KustoDatabase)
    (database command label : string) (w : World)
    (tables : list (list (list scalar))) :
  kusto_execute (kcsb self) database command = inr tables ->
  let m :=
    try_except
      (primary_results ← execute self database command;
       table ← getitem0 primary_results;
       tables ← comprehension getitem0 table;
       mret (Some (Names tables)))
      (fun e => logger_error (label +:+ exn_str e);; mret None) in
  let failed :=
    (Return None,
     mkWorld (log w ++ [(ERROR, label +:+ "list index out of range")])
             (requests w ++ [(database, command)])) in
  (tables = [] -> m w = failed) /\
  (forall table rest, tables = table :: rest -> [] ∈ table -> m w = failed) /\
  (forall cells rest,
     tables = map (fun p => p.1 :: p.2) cells :: rest ->
     m w = (Return (Some (Names (map fst cells))),
            mkWorld (log w) (requests w ++ [(database, command)]))).
Proof.
  intros Hexec m failed. subst m failed.
  unfold try_except, mbind, M_bind, execute. cbv beta zeta. rewrite Hexec.
  split; [| split].
  - now intros ->.
  - intros table rest -> Hrow. simpl.
    now rewrite (comprehension_empty_row _ _ Hrow).
  - intros cells rest ->. simpl.
    now rewrite comprehension_first_column.
Qed.

(** A listing method returns, whatever the service does, after one
    request; it returns [None] when the service raised. *)
Lemma listing_body_outcome (self : KustoDatabase)
    (database command label : string) (w : World) :
  let m :=
    try_except
      (primary_results ← execute self database command;
       table ← getitem0 primary_results;
       tables ← comprehension getitem0 table;
       mret (Some (Names tables)))
      (fun e => logger_error (label +:+ exn_str e);; mret None) in
  exists results new,
    m w = (Return results,
           mkWorld (log w ++ new) (requests w ++ [(database, command)])) /\
    (forall e, kusto_execute (kcsb self) database command = inl e ->
               results = None).
Proof.
  intros m. subst m. unfold try_except, mbind, M_bind, execute.
  cbv beta zeta.
  destruct (kusto_execute (kcsb self) database command)
    as [e0 | [|table rest]].
  - now eexists None, [_].
  - eexists None, [_]. split; [reflexivity | discriminate].
  - simpl.
    destruct (comprehension_getitem0_world table
                (mkWorld (log w) (requests w ++ [(database, command)])))
      as [o ->].
    destruct o as [names | e0].
    + eexists _, []. rewrite app_nil_r. split; [reflexivity | discriminate].
    + eexists None, [_]. split; [reflexivity | discriminate].
Qed.

Lemma table_body_outcome (self : KustoDatabase)
    (database command label : string) (w : World) :
  let m :=
    try_except
      (primary_results ← execute self database command;
       table ← getitem0 primary_results;
       mret (Some (PrimaryResult table)))
      (fun e => logger_error (label +:+ exn_str e);; mret None) in
  exists results new,
    m w = (Return results,
           mkWorld (log w ++ new) (requests w ++ [(database, command)])) /\
    (forall e, kusto_execute (kcsb self) database command = inl e ->
               results = None) /\
    (forall table rest,
       kusto_execute (kcsb self) database command = inr (table :: rest) ->
       results = Some (PrimaryResult table) /\ new = []) /\
    (kusto_execute (kcsb self) database command = inr [] ->
     results = None /\
     new = [(ERROR, label +:+ "list index out of range")]).
Proof.
  intros m. subst m. unfold try_except, mbind, M_bind, execute.
  cbv beta zeta.
  destruct (kusto_execute (kcsb self) database command)
    as [e0 | [|table rest]].
  - eexists None, [_]. repeat split; try reflexivity; discriminate.
  - eexists None, [_]. repeat split; try reflexivity; discriminate.
  - eexists _, []. rewrite app_nil_r. simpl.
    repeat split; try discriminate; congruence.
Qed.

(** *** Every gateway call *)

(** A gateway call is either stopped by the guard, with one debug record
    and no request, or it returns after exactly one request to the database
    it names; it returns [None] when that request made the service raise. *)
Lemma call_cases (self : KustoDatabase) (c : gateway_call) (w : World) :
  (exists database query,
     (c = ExecuteQueryInternalTable database query \/
      c = ExecuteQueryExternalTable database query) /\
     startswith query "." = true /\
     call self c w =
     (Raise ForbiddenCommand,
      mkWorld (log w ++ [(DEBUG, "Executing query: " +:+ query)])
              (requests w))) \/
  (exists results command new,
     call self c w =
     (Return results,
      mkWorld (log w ++ new) (requests w ++ [(database_of c, command)])) /\
     (forall e, kusto_execute (kcsb self) (database_of c) command = inl e ->
                results = None)).
Proof.
  destruct c as [db | db | db | db query | db query | db table | db table];
    unfold call, database_of.
  - right. destruct (listing_body_outcome self db ".show tables"
                       "Error listing tables: " w) as (r & new & H).
    now exists r, ".show tables", new.
  - right. destruct (listing_body_outcome self db ".show external tables"
                       "Error listing external tables: " w) as (r & new & H).
    now exists r, ".show external tables", new.
  - right. destruct (listing_body_outcome self db ".show materialized-views"
                       "Error listing materialized views: " w)
      as (r & new & H).
    now exists r, ".show materialized-views", new.
  - rewrite execute_query_internal_table_unfold. cbv zeta.
    destruct (startswith query ".") eqn:Hdot.
    { left. exists db, query. auto. }
    right.
    destruct (table_body_outcome self db query "Error executing query: "
                (mkWorld (log w ++ [(DEBUG, "Executing query: " +:+ query)])
                         (requests w))) as (r & new & H & Hf & _).
    cbv zeta in H. simpl in H. rewrite <- app_assoc in H.
    now exists r, query, ([(DEBUG, "Executing query: " +:+ query)] ++ new)%list.
  - rewrite execute_query_external_table_unfold. cbv zeta.
    destruct (startswith query ".") eqn:Hdot.
    { left. exists db, query. auto. }
    right.
    destruct (external_table_rewrite_total query
                (mkWorld (log w ++ [(DEBUG, "Executing query: " +:+ query)])
                         (requests w))) as [rewritten ->].
    destruct (table_body_outcome self db rewritten "Error executing query: "
                (mkWorld (log w ++ [(DEBUG, "Executing query: " +:+ query)])
                         (requests w))) as (r & new & H & Hf & _).
    cbv zeta in H. simpl in H. rewrite <- app_assoc in H.
    now exists r, rewritten,
      ([(DEBUG, "Executing query: " +:+ query)] ++ new)%list.
  - right.
    destruct (table_body_outcome self db (table +:+ " | getschema")
                "Error retrieving table schema: " w) as (r & new & H & Hf & _).
    now exists r, (table +:+ " | getschema"), new.
  - right.
    destruct (table_body_outcome self db
                (external_table table +:+ " | getschema")
                "Error retrieving table schema: " w) as (r & new & H & Hf & _).
    now exists r, (external_table table +:+ " | getschema"), new.
Qed.

Lemma respond_value (m : M (option rows)) (w w' : World)
    (out : outcome (option rows)) :
  m w = (out, w') ->
  respond m w =
  (match out with
   | Return results => Return (Some (text_content results))
   | Raise e => Raise e
   end, w').
Proof.
  intros H. unfold respond, mbind, M_bind. rewrite H. now destruct out.
Qed.

(** *** Every call of the dispatcher *)

(** With a [database], the catalogue name that no branch tests for falls
    through the whole chain, whatever else the dictionary holds. *)
Lemma handle_call_tool_no_branch (self : KustoDatabase)
    (d : gmap string string) (database : string) (w : World) :
  d !! "database" = Some database ->
  handle_call_tool self "retrieve_internal_table_schema" (Some d) w =
  (Return None, w).
Proof.
  intros Hdb. unfold handle_call_tool.
  rewrite bool_decide_eq_true_2 by compute_done.
  rewrite (falsy_present _ _ _ Hdb), (has_key_present _ _ _ Hdb).
  cbv beta iota delta [negb orb].
  unfold mbind at 1. unfold M_bind at 1.
  rewrite (getitem_present _ _ _ _ Hdb).
  now cbv beta iota delta [String.eqb Ascii.eqb Bool.eqb].
Qed.

(** The ways through [handle_call_tool]: the two checks all calls share, the
    check of the branch, the name no branch tests for, and the branches
    that reach a gateway method. *)
Lemma handle_call_tool_cases (self : KustoDatabase) (called : string)
    (arguments : CallArguments) (w : World) :
  ((called ∉ tool_name_list) /\
   handle_call_tool self called arguments w =
   (Raise (UnknownOperation called), w)) \/
  (called ∈ tool_name_list /\
   (arguments = None \/
    exists d, arguments = Some d /\ d !! "database" = None) /\
   handle_call_tool self called arguments w =
   (Raise (MissingArgument "database"), w)) \/
  (exists d database,
     called ∈ tool_name_list /\
     arguments = Some d /\ d !! "database" = Some database /\
     (((called = "execute_query_internal_table" \/
        called = "execute_query_external_table") /\
       d !! "query" = None /\
       handle_call_tool self called arguments w =
       (Raise (MissingArgument "database or query"), w)) \/
      (called = "retrieve_external_table_schema" /\
       d !! "table" = None /\
       handle_call_tool self called arguments w =
       (Raise (MissingArgument "database or table"), w)) \/
      (called = "retrieve_internal_table_schema" /\
       handle_call_tool self called arguments w = (Return None, w)) \/
      (exists c,
         database_of c = database /\
         handle_call_tool self called arguments w =
         respond (call self c) w))).
Proof.
  destruct (decide (called ∈ tool_name_list)) as [Hin | Hnin].
  2:{ left. split; [exact Hnin |]. unfold handle_call_tool.
      now rewrite (bool_decide_eq_false_2 _ Hnin). }
  right.
  assert (Hmissing :
    arguments = None \/
    (exists d, arguments = Some d /\ d !! "database" = None) ->
    handle_call_tool self called arguments w =
    (Raise (MissingArgument "database"), w)).
  { intros Ha. unfold handle_call_tool.
    rewrite (bool_decide_eq_true_2 _ Hin). simpl negb.
    now rewrite (missing_database _ Ha). }
  destruct arguments as [d |]; [| left; auto].
  destruct (d !! "database") as [database |] eqn:Hdb.
  2:{ left. split; [exact Hin |]. split; [| apply Hmissing]; eauto. }
  right. exists d, database.
  split; [exact Hin |]. split; [reflexivity |]. split; [exact Hdb |].
  destruct (handle_call_tool_routes self d database w Hdb)
    as (R1 & R2 & R3 & Rq & Rt).
  destruct (handle_call_tool_missing_specific self d database w Hdb)
    as (Mq & Mt).
  unfold tool_name_list in Hin. simpl in Hin.
  repeat (apply elem_of_cons in Hin as [-> | Hin]).
  - do 3 right. now exists (ListInternalTables database).
  - do 3 right. now exists (ListExternalTables database).
  - do 3 right. now exists (ListMaterializedViews database).
  - destruct (d !! "query") as [query |] eqn:Hq.
    + do 3 right. exists (ExecuteQueryInternalTable database query).
      split; [reflexivity |]. now apply Rq.
    + left. split; [auto |]. split; [reflexivity |]. now apply Mq.
  - destruct (d !! "query") as [query |] eqn:Hq.
    + do 3 right. exists (ExecuteQueryExternalTable database query).
      split; [reflexivity |]. now apply Rq.
    + left. split; [auto |]. split; [reflexivity |]. now apply Mq.
  - do 2 right. left. split; [reflexivity |].
    now apply (handle_call_tool_no_branch self d database).
  - destruct (d !! "table") as [table |] eqn:Ht.
    + do 3 right. exists (RetrieveExternalTableSchema database table).
      split; [reflexivity |]. now apply Rt.
    + right. left. split; [reflexivity |]. split; [reflexivity |].
      now apply Mt.
  - now apply elem_of_nil in Hin.
Qed.

(** X1: whatever the service does, a gateway method raises nothing but
    ForbiddenCommand, and then without a request; otherwise it returns
    after exactly one request, to the database named in the call. *)
Theorem gateway_rejects_or_requests_once (self : KustoDatabase)
    (c : gateway_call) (w : World) :
  (fst (call self c w) = Raise ForbiddenCommand /\
   requests (snd (call self c w)) = requests w) \/
  (exists results command,
     fst (call self c w) = Return results /\
     requests (snd (call self c w)) =
     (requests w ++ [(database_of c, command)])%list).
Proof.
  destruct (call_cases self c w)
    as [(db & q & _ & _ & ->) | (r & command & new & -> & _)].
  - now left.
  - right. now exists r, command.
Qed.

(** X15: the guard stops exactly the two query methods on a text that
    starts with a dot; the listing and schema methods are never stopped,
    whatever table text they are given. *)
Theorem guard_rejects_exactly_dot_queries (self : KustoDatabase)
    (c : gateway_call) (w : World) :
  fst (call self c w) = Raise ForbiddenCommand <->
  exists database query,
    (c = ExecuteQueryInternalTable database query \/
     c = ExecuteQueryExternalTable database query) /\
    startswith query "." = true.
Proof.
  split.
  - destruct (call_cases self c w)
      as [(db & q & Hc & Hdot & _) | (r & command & new & -> & _)].
    + intros _. now exists db, q.
    + discriminate.
  - intros (db & q & [-> | ->] & Hdot); unfold call.
    + rewrite execute_query_internal_table_unfold. cbv zeta.
      now rewrite Hdot.
    + rewrite execute_query_external_table_unfold. cbv zeta.
      now rewrite Hdot.
Qed.

(** X3: a call only adds to what is there: the log and the requests of
    before stay in front, and at most one request is new. *)
Theorem handle_call_tool_appends (self : KustoDatabase) (called : string)
    (arguments : CallArguments) (w : World) :
  exists new issued,
    log (snd (handle_call_tool self called arguments w)) =
      (log w ++ new)%list /\
    requests (snd (handle_call_tool self called arguments w)) =
      (requests w ++ issued)%list /\
    List.length issued <= 1.
Proof.
  destruct (handle_call_tool_cases self called arguments w)
    as [(_ & ->) | [(_ & _ & ->) | (d & db & _ & _ & _ &
         [(_ & _ & ->) | [(_ & _ & ->) | [(_ & ->) | (c & _ & ->)]]])]];
    try solve [exists [], []; simpl; rewrite !app_nil_r; auto].
  destruct (call_cases self c w)
    as [(db' & q & _ & _ & H) | (r & command & new & H & _)];
    rewrite (respond_value _ _ _ _ H); simpl.
  - exists [(DEBUG, "Executing query: " +:+ q)], [].
    rewrite app_nil_r. auto.
  - exists new, [(database_of c, command)]. auto.
Qed.

(** X4: when [handle_call_tool] returns, it returns one item of type
    [text]; the exception is the catalogue name no branch tests for, which
    returns [None]. *)
Theorem handle_call_tool_one_text_item (self : KustoDatabase)
    (called : string) (arguments : CallArguments) (w : World)
    (returned : option (list TextContent)) :
  fst (handle_call_tool self called arguments w) = Return returned ->
  (returned = None /\ called = "retrieve_internal_table_schema") \/
  (exists t, returned = Some [ {| type := "text"; text := t |} ] /\
             called <> "retrieve_internal_table_schema").
Proof.
  destruct (handle_call_tool_cases self called arguments w)
    as [(_ & ->) | [(_ & _ & ->) | (d & db & Hin & -> & Hdb &
         [(_ & _ & ->) | [(_ & _ & ->) | [(-> & ->) | (c & _ & Hc)]]])]];
    simpl; try discriminate.
  - intros [= <-]. now left.
  - intros H. right.
    destruct (String.eqb_spec called "retrieve_internal_table_schema")
      as [-> | Hne].
    { rewrite (handle_call_tool_no_branch self d db w Hdb) in Hc.
      destruct (call_cases self c w)
        as [(db' & q & _ & _ & Hg) | (r & command & new & Hg & _)];
        rewrite (respond_value _ _ _ _ Hg) in Hc; discriminate. }
    rewrite Hc in H.
    destruct (call_cases self c w)
      as [(db' & q & _ & _ & Hg) | (r & command & new & Hg & _)];
      rewrite (respond_value _ _ _ _ Hg) in H; simpl in H.
    + discriminate.
    + injection H as <-. now eexists.
Qed.

(** X5: when the request of a call makes the service raise, the caller
    still gets an answer: the one text item [None]. *)
Theorem handle_call_tool_failure_text (self : KustoDatabase) (called : string)
    (arguments : CallArguments) (w : World) (database command : string)
    (e : exn) :
  requests (snd (handle_call_tool self called arguments w)) =
    (requests w ++ [(database, command)])%list ->
  kusto_execute (kcsb self) database command = inl e ->
  fst (handle_call_tool self called arguments w) =
  Return (Some [ {| type := "text"; text := "None" |} ]).
Proof.
  destruct (handle_call_tool_cases self called arguments w)
    as [(_ & ->) | [(_ & _ & ->) | (d & db & _ & _ & _ &
         [(_ & _ & ->) | [(_ & _ & ->) | [(_ & ->) | (c & _ & ->)]]])]];
    simpl; try (intros H; now apply request_fresh in H).
  destruct (call_cases self c w)
    as [(db' & q & _ & _ & H) | (r & issued & new & H & Hnone)];
    rewrite (respond_value _ _ _ _ H); simpl.
  - intros Hr. now apply request_fresh in Hr.
  - intros [= <- <-]%request_inv Hexec. now rewrite (Hnone e Hexec).
Qed.

(** *** Listing *)

Lemma listing_route (self : KustoDatabase) (d : gmap string string)
    (database called command label : string) (w : World) :
  (called, command, label) ∈
    [ ("list_internal_tables", ".show tables", "Error listing tables: ");
      ("list_external_tables", ".show external tables",
       "Error listing external tables: ");
      ("list_materialized_views", ".show materialized-views",
       "Error listing materialized views: ") ] ->
  d !! "database" = Some database ->
  handle_call_tool self called (Some d) w =
  respond
    (try_except
       (primary_results ← execute self database command;
        table ← getitem0 primary_results;
        tables ← comprehension getitem0 table;
        mret (Some (Names tables)))
       (fun e => logger_error (label +:+ exn_str e);; mret None)) w.
Proof.
  intros Hin Hdb.
  destruct (handle_call_tool_routes self d database w Hdb)
    as (R1 & R2 & R3 & _).
  repeat (apply elem_of_cons in Hin as [[= -> -> ->] | Hin]);
    [exact R1 | exact R2 | exact R3 | now apply elem_of_nil in Hin].
Qed.

(** X7: the three listing tools answer with the first column of the first
    table the service sends, as the text of a Python list; further columns
    and further tables are dropped and nothing is logged. *)
Theorem handle_call_tool_lists_first_column (self : KustoDatabase)
    (d : gmap string string) (database called command : string) (w : World)
    (cells : list (scalar * list scalar))
    (rest : list (list (list scalar))) :
  (called, command) ∈
    [ ("list_internal_tables", ".show tables");
      ("list_external_tables", ".show external tables");
      ("list_materialized_views", ".show materialized-views") ] ->
  d !! "database" = Some database ->
  kusto_execute (kcsb self) database command =
    inr (map (fun p => p.1 :: p.2) cells :: rest) ->
  handle_call_tool self called (Some d) w =
  (Return (Some [ {| type := "text"; text := str_list (map fst cells) |} ]),
   mkWorld (log w) (requests w ++ [(database, command)])).
Proof.
  intros Hin Hdb Hexec.
  assert (exists label,
    (called, command, label) ∈
    [ ("list_internal_tables", ".show tables", "Error listing tables: ");
      ("list_external_tables", ".show external tables",
       "Error listing external tables: ");
      ("list_materialized_views", ".show materialized-views",
       "Error listing materialized views: ") ]) as [label Hl].
  { repeat (apply elem_of_cons in Hin as [[= -> ->] | Hin]);
      [ exists "Error listing tables: "
      | exists "Error listing external tables: "
      | exists "Error listing materialized views: "
      | now apply elem_of_nil in Hin ]; compute_done. }
  rewrite (listing_route self d database called command label w Hl Hdb).
  destruct (listing_body_answer self database command label w _ Hexec)
    as (_ & _ & H).
  now rewrite (respond_value _ _ _ _ (H cells rest eq_refl)).
Qed.

(** X8: an answer without any table, or with a row without columns in its
    first table, is treated like a failure of the service: the listing tool
    answers with the text [None] and the log gets an error record that
    reads [list index out of range]. *)
Theorem handle_call_tool_listing_index_error (self : KustoDatabase)
    (d : gmap string string) (database called command label : string)
    (w : World) (tables : list (list (list scalar))) :
  (called, command, label) ∈
    [ ("list_internal_tables", ".show tables", "Error listing tables: ");
      ("list_external_tables", ".show external tables",
       "Error listing external tables: ");
      ("list_materialized_views", ".show materialized-views",
       "Error listing materialized views: ") ] ->
  d !! "database" = Some database ->
  kusto_execute (kcsb self) database command = inr tables ->
  tables = [] \/ (exists table rest, tables = table :: rest /\ [] ∈ table) ->
  handle_call_tool self called (Some d) w =
  (Return (Some [ {| type := "text"; text := "None" |} ]),
   mkWorld (log w ++ [(ERROR, label +:+ "list index out of range")])
           (requests w ++ [(database, command)])).
Proof.
  intros Hl Hdb Hexec Hbad.
  rewrite (listing_route self d database called command label w Hl Hdb).
  destruct (listing_body_answer self database command label w _ Hexec)
    as (H1 & H2 & _).
  destruct Hbad as [-> | (table & rest & -> & Hrow)].
  - now rewrite (respond_value _ _ _ _ (H1 eq_refl)).
  - now rewrite (respond_value _ _ _ _ (H2 table rest eq_refl Hrow)).
Qed.

(** *** Queries and schemas *)

(** X9: on the internal path a query that passes the guard is sent as it
    is, and the answer is the text of the first table; an answer without
    tables gives the text [None]. *)
Theorem handle_call_tool_internal_query (self : KustoDatabase)
    (d : gmap string string) (database query : string) (w : World)
    (tables : list (list (list scalar))) :
  d !! "database" = Some database ->
  d !! "query" = Some query ->
  startswith query "." = false ->
  kusto_execute (kcsb self) database query = inr tables ->
  handle_call_tool self "execute_query_internal_table" (Some d) w =
  match tables with
  | table :: _ =>
      (Return (Some [ {| type := "text"; text := str_table table |} ]),
       mkWorld (log w ++ [(DEBUG, "Executing query: " +:+ query)])
               (requests w ++ [(database, query)]))
  | [] =>
      (Return (Some [ {| type := "text"; text := "None" |} ]),
       mkWorld (log w ++ [(DEBUG, "Executing query: " +:+ query);
                          (ERROR, "Error executing query: list index out of range")])
               (requests w ++ [(database, query)]))
  end.
Proof.
  intros Hdb Hq Hdot Hexec.
  destruct (handle_call_tool_routes self d database w Hdb)
    as (_ & _ & _ & Rq & _).
  destruct (Rq query Hq) as [-> _].
  assert (H := execute_query_internal_table_unfold self database query w).
  cbv zeta in H. rewrite Hdot in H.
  destruct (table_body_outcome self database query "Error executing query: "
              (mkWorld (log w ++ [(DEBUG, "Executing query: " +:+ query)])
                       (requests w))) as (r & new & Hm & _ & Hsome & Hnone).
  cbv zeta in Hm. rewrite Hm in H. simpl in H.
  rewrite (respond_value _ _ _ _ H).
  destruct tables as [|table rest].
  - destruct (Hnone Hexec) as [-> ->]. simpl. now rewrite <- app_assoc.
  - destruct (Hsome table rest Hexec) as [-> ->]. simpl.
    now rewrite app_nil_r.
Qed.

(** X10: through the dispatcher too, a query that starts with a dot is
    refused on both paths after the debug record, before any request. *)
Theorem handle_call_tool_forbidden (self : KustoDatabase)
    (d : gmap string string) (database query : string) (w : World) :
  d !! "database" = Some database ->
  d !! "query" = Some query ->
  startswith query "." = true ->
  handle_call_tool self "execute_query_internal_table" (Some d) w =
    (Raise ForbiddenCommand,
     mkWorld (log w ++ [(DEBUG, "Executing query: " +:+ query)])
             (requests w)) /\
  handle_call_tool self "execute_query_external_table" (Some d) w =
    (Raise ForbiddenCommand,
     mkWorld (log w ++ [(DEBUG, "Executing query: " +:+ query)])
             (requests w)).
Proof.
  intros Hdb Hq Hdot.
  destruct (handle_call_tool_routes self d database w Hdb)
    as (_ & _ & _ & Rq & _).
  destruct (Rq query Hq) as [-> ->].
  assert (Hi := execute_query_internal_table_unfold self database query w).
  assert (He := execute_query_external_table_unfold self database query w).
  cbv zeta in Hi, He. rewrite Hdot in Hi, He.
  now rewrite (respond_value _ _ _ _ Hi), (respond_value _ _ _ _ He).
Qed.

(** X11: the external schema tool applies no guard to the table text: it
    always returns, after the one request
    [external_table("<table>") | getschema] with the text spliced in as it
    is. *)
Theorem handle_call_tool_external_schema (self : KustoDatabase)
    (d : gmap string string) (database table : string) (w : World) :
  d !! "database" = Some database ->
  d !! "table" = Some table ->
  exists t new,
    handle_call_tool self "retrieve_external_table_schema" (Some d) w =
    (Return (Some [ {| type := "text"; text := t |} ]),
     mkWorld (log w ++ new)
             (requests w ++
              [(database, external_table table +:+ " | getschema")])).
Proof.
  intros Hdb Ht.
  destruct (handle_call_tool_routes self d database w Hdb)
    as (_ & _ & _ & _ & Rt).
  rewrite (Rt table Ht). unfold retrieve_external_table_schema.
  destruct (table_body_outcome self database
              (external_table table +:+ " | getschema")
              "Error retrieving table schema: " w) as (r & new & Hm & _).
  cbv zeta in Hm. rewrite (respond_value _ _ _ _ Hm).
  now eexists _, new.
Qed.

(** *** The rewrite in general *)

Lemma split_head_prefix (s piece : string) (pieces : list string)
    (sep : ascii) :
  split s sep = piece :: pieces -> exists rest, s = piece +:+ rest.
Proof.
  revert piece pieces. induction s as [|c s IH]; intros piece pieces.
  - intros [= <- _]. now exists "".
  - simpl. destruct (Ascii.eqb c sep).
    + intros [= <- _]. now exists (String c s).
    + destruct (split s sep) as [|p ps] eqn:E.
      * intros [= <- _]. pose proof (split_nonempty s sep). contradiction.
      * intros [= <- _]. destruct (IH p ps eq_refl) as [rest ->].
        now exists rest.
Qed.

Lemma leading_space_blanks (l x : string) (a : ascii) :
  all_space l = true -> isspace a = false ->
  leading_space (l +:+ String a x) = l.
Proof.
  intros Hl Ha. induction l as [|c l IH].
  - rewrite append_nil_l. simpl. now rewrite Ha.
  - simpl in Hl. apply andb_true_iff in Hl as [Hc Hl].
    rewrite append_cons. simpl. now rewrite Hc, (IH Hl).
Qed.

Lemma blanks_without_pipe (blanks : string) :
  all_space blanks = true -> contains blanks "|" = false.
Proof.
  induction blanks as [|c blanks IH]; [reflexivity |].
  simpl all_space. intros [Hc Hb]%andb_true_iff.
  simpl. destruct (Ascii.eqb c "|") eqn:E.
  - apply Ascii.eqb_eq in E. subst c. discriminate.
  - now rewrite (IH Hb).
Qed.

Lemma strip_blanks_empty (blanks : string) :
  all_space blanks = true -> strip blanks = "".
Proof. intros H. unfold strip. now rewrite (lstrip_all_space _ H). Qed.

Lemma length_append (a b : string) :
  String.length (a +:+ b) = String.length a + String.length b.
Proof.
  induction a as [|c a IH]; [reflexivity |].
  rewrite append_cons. simpl. now rewrite IH.
Qed.

Lemma replace_empty_length (s new : string) :
  String.length (replace_empty s new) =
  String.length s + String.length new * (String.length s + 1).
Proof.
  induction s as [|c s IH]; simpl; [lia |].
  rewrite length_append. simpl. rewrite IH. lia.
Qed.

(** X12: whenever the text in front of the first pipe is not blank, the
    rewrite keeps the blanks in front of the query, wraps the name that
    follows them, and goes on replacing the name in all that comes after
    it: pipes, operators and literals included. *)
Theorem external_rewrite_wraps_leading_name (self : KustoDatabase)
    (database query piece : string) (pieces : list string) (w : World) :
  startswith query "." = false ->
  split query "|" = piece :: pieces ->
  strip piece <> "" ->
  exists tail,
    query = leading_space query +:+ strip piece +:+ tail /\
    external_table_rewrite query w =
      (Return (leading_space query +:+ external_table (strip piece) +:+
               replace tail (strip piece) (external_table (strip piece))),
       w) /\
    requests (snd (execute_query_external_table self database query w)) =
      (requests w ++
       [(database,
         leading_space query +:+ external_table (strip piece) +:+
         replace tail (strip piece) (external_table (strip piece)))])%list.
Proof.
  intros Hdot Hsplit Hne.
  destruct (split_head_prefix _ _ _ _ Hsplit) as [rest Hq].
  pose proof (strip_decompose piece Hne) as Hp.
  destruct (strip piece) as [|a name'] eqn:E; [congruence |].
  pose proof (strip_head _ _ _ E) as Ha.
  pose proof (leading_space_all_space piece) as Hl.
  set (l := leading_space piece) in *.
  set (tail := trailing_space piece +:+ rest).
  assert (Hquery : query = l +:+ String a name' +:+ tail).
  { rewrite Hq. rewrite Hp at 1. unfold tail.
    now rewrite !append_assoc. }
  assert (Hlead : leading_space query = l).
  { rewrite Hquery, append_cons. now apply leading_space_blanks. }
  assert (Hrw : forall w0,
    external_table_rewrite query w0 =
    (Return (leading_space query +:+ external_table (String a name') +:+
             replace tail (String a name') (external_table (String a name'))),
     w0)).
  { intros w0. rewrite external_table_rewrite_value, Hsplit, E, Hlead.
    do 2 f_equal. rewrite Hquery at 1. unfold replace.
    now rewrite (replace_scan_blanks a name' _ l _ Ha Hl),
      replace_scan_occurrence. }
  exists tail. split; [now rewrite Hlead |]. split; [apply Hrw |].
  apply execute_query_external_table_requests; [exact Hdot | apply Hrw].
Qed.

Lemma startswith_pipe_inv (s : string) :
  startswith s "|" = true -> exists s', s = String "|" s'.
Proof.
  destruct s as [|c s']; simpl; [discriminate |].
  destruct (Ascii.eqb c "|") eqn:E; [| discriminate].
  apply Ascii.eqb_eq in E. subst c. now exists s'.
Qed.

(** X13: a query with nothing but blanks in front of its first pipe, the
    empty query among them, has the empty table name: the command built
    from it has [external_table("")] in front of every character and at
    the end, 18 characters for each. *)
Theorem external_rewrite_blank_name (blanks rest : string) (w : World) :
  all_space blanks = true ->
  rest = "" \/ startswith rest "|" = true ->
  external_table_rewrite (blanks +:+ rest) w =
    (Return (replace_empty (blanks +:+ rest) (external_table "")), w) /\
  String.length (replace_empty (blanks +:+ rest) (external_table "")) =
    String.length (blanks +:+ rest) +
    18 * (String.length (blanks +:+ rest) + 1).
Proof.
  intros Hb Hrest. split; [| apply replace_empty_length].
  rewrite external_table_rewrite_value.
  pose proof (blanks_without_pipe _ Hb) as Hpipe.
  destruct Hrest as [-> | [rest' ->]%startswith_pipe_inv].
  - rewrite append_empty_r, (split_no_separator _ _ Hpipe).
    now rewrite (strip_blanks_empty _ Hb).
  - rewrite (split_first_piece _ _ _ Hpipe).
    now rewrite (strip_blanks_empty _ Hb).
Qed.

(** *** Start-up *)

(** X14: the options of the command line reach the builder in the slots
    of their names, although [main] of [server.py] and [KustoDatabase]
    take them in different orders.  When the builder raises nothing the
    handlers work on the configuration built from them; what the builder
    raises, and the ConfigurationError for an option that is not given,
    end the start-up before a handler exists.  An [http://] cluster needs
    none of the three. *)
Theorem cli_main_connection (args : Namespace) :
  (startswith (args_cluster args) "http://" = true ->
   no_authentication_refusal (args_cluster args) = None ->
   cli_main args =
   Return {| list_tools := handle_list_tools;
             call_tool := handle_call_tool
               {| kcsb := with_no_authentication (args_cluster args) |} |}) /\
  (startswith (args_cluster args) "http://" = false ->
   forall client_id client_secret authority_id,
     args_client_id args = Some client_id ->
     args_client_secret args = Some client_secret ->
     args_authority_id args = Some authority_id ->
     (aad_application_key_refusal (args_cluster args)
        client_id client_secret authority_id = None ->
      cli_main args =
      Return {| list_tools := handle_list_tools;
                call_tool := handle_call_tool
                  {| kcsb := with_aad_application_key_authentication
                               (args_cluster args) client_id client_secret
                               authority_id |} |}) /\
     (forall e,
        aad_application_key_refusal (args_cluster args)
          client_id client_secret authority_id = Some e ->
        cli_main args = Raise e)) /\
  (startswith (args_cluster args) "http://" = false ->
   args_client_id args = None \/ args_client_secret args = None \/
   args_authority_id args = None ->
   cli_main args = Raise ConfigurationError).
Proof.
  unfold cli_main, server_main, KustoDatabase_init,
    build_with_no_authentication,
    build_with_aad_application_key_authentication.
  destruct args as [cluster a i s]. simpl. split; [| split].
  - now intros -> ->.
  - intros -> ? ? ? -> -> ->. split; [now intros -> | now intros e ->].
  - intros -> [-> | [-> | ->]]; [reflexivity | |].
    + now destruct i.
    + now destruct i, s.
Qed.

End Behaviour.

(** ** The further properties on concrete calls *)

Lemma handle_call_tool_one_text_item_witness :
  (Some [ {| type := "text"; text := ".show tables" |} ] = None /\
   "list_internal_tables" = "retrieve_internal_table_schema") \/
  (exists t,
     Some [ {| type := "text"; text := ".show tables" |} ] =
     Some [ {| type := "text"; text := t |} ] /\
     "list_internal_tables" <> "retrieve_internal_table_schema").
Proof.
  apply (handle_call_tool_one_text_item (sdk := echo_sdk) emulator
           "list_internal_tables" (Some {[ "database" := "Contoso" ]}) fresh).
  vm_compute. reflexivity.
Defined.

Lemma handle_call_tool_failure_text_witness :
  fst (handle_call_tool (sdk := unreachable_sdk) emulator
         "retrieve_external_table_schema"
         (Some {[ "database" := "Contoso"; "table" := "StormEvents" ]})
         fresh) =
  Return (Some [ {| type := "text"; text := "None" |} ]).
Proof.
  apply (handle_call_tool_failure_text (sdk := unreachable_sdk) emulator
           "retrieve_external_table_schema" _ fresh "Contoso"
           (external_table "StormEvents" +:+ " | getschema")
           (KustoError "connection refused")).
  - vm_compute. reflexivity.
  - reflexivity.
Defined.

Lemma handle_call_tool_lists_first_column_witness :
  handle_call_tool (sdk := sample_sdk) emulator "list_external_tables"
    (Some {[ "database" := "Contoso" ]}) fresh =
  (Return (Some [ {| type := "text"; text := "StormEvents, Logs" |} ]),
   mkWorld [] [("Contoso", ".show external tables")]).
Proof.
  apply (handle_call_tool_lists_first_column (sdk := sample_sdk) emulator
           {[ "database" := "Contoso" ]} "Contoso" "list_external_tables"
           ".show external tables" fresh
           [("StormEvents", ["dbo"]); ("Logs", ["dbo"])] [[["ignored"]]]).
  - compute_done.
  - reflexivity.
  - reflexivity.
Defined.

Lemma handle_call_tool_listing_index_error_witness :
  handle_call_tool (sdk := sample_sdk) emulator "list_internal_tables"
    (Some {[ "database" := "Ragged" ]}) fresh =
  (Return (Some [ {| type := "text"; text := "None" |} ]),
   mkWorld [(ERROR, "Error listing tables: list index out of range")]
           [("Ragged", ".show tables")]).
Proof.
  apply (handle_call_tool_listing_index_error (sdk := sample_sdk) emulator
           {[ "database" := "Ragged" ]} "Ragged" "list_internal_tables"
           ".show tables" "Error listing tables: " fresh
           [[["StormEvents"]; []]]).
  - compute_done.
  - reflexivity.
  - reflexivity.
  - right. exists [["StormEvents"]; []], []. split; [reflexivity |].
    compute_done.
Defined.

Lemma handle_call_tool_internal_query_witness :
  handle_call_tool (sdk := sample_sdk) emulator "execute_query_internal_table"
    (Some {[ "database" := "Contoso"; "query" := "StormEvents | take 2" ]})
    fresh =
  (Return (Some [ {| type := "text";
                     text := "StormEvents, dbo; Logs, dbo" |} ]),
   mkWorld [(DEBUG, "Executing query: StormEvents | take 2")]
           [("Contoso", "StormEvents | take 2")]).
Proof.
  exact (handle_call_tool_internal_query (sdk := sample_sdk) emulator
           {[ "database" := "Contoso"; "query" := "StormEvents | take 2" ]}
           "Contoso" "StormEvents | take 2" fresh
           [[["StormEvents"; "dbo"]; ["Logs"; "dbo"]]; [["ignored"]]]
           eq_refl eq_refl eq_refl eq_refl).
Defined.

Lemma handle_call_tool_forbidden_witness :
  handle_call_tool (sdk := echo_sdk) emulator "execute_query_internal_table"
    (Some {[ "database" := "Contoso"; "query" := ".show tables" ]}) fresh =
    (Raise ForbiddenCommand,
     mkWorld [(DEBUG, "Executing query: .show tables")] []) /\
  handle_call_tool (sdk := echo_sdk) emulator "execute_query_external_table"
    (Some {[ "database" := "Contoso"; "query" := ".show tables" ]}) fresh =
    (Raise ForbiddenCommand,
     mkWorld [(DEBUG, "Executing query: .show tables")] []).
Proof.
  exact (handle_call_tool_forbidden (sdk := echo_sdk) emulator
           {[ "database" := "Contoso"; "query" := ".show tables" ]}
           "Contoso" ".show tables" fresh eq_refl eq_refl eq_refl).
Defined.

Lemma handle_call_tool_external_schema_witness :
  exists t new,
    handle_call_tool (sdk := echo_sdk) emulator
      "retrieve_external_table_schema"
      (Some {[ "database" := "Contoso"; "table" := ".show tables" ]}) fresh =
    (Return (Some [ {| type := "text"; text := t |} ]),
     mkWorld ([] ++ new)
             [("Contoso", external_table ".show tables" +:+ " | getschema")]).
Proof.
  exact (handle_call_tool_external_schema (sdk := echo_sdk) emulator
           {[ "database" := "Contoso"; "table" := ".show tables" ]}
           "Contoso" ".show tables" fresh eq_refl eq_refl).
Defined.

Lemma external_rewrite_wraps_leading_name_witness :
  exists tail,
    "  StormEvents | where Source == 'StormEvents'" =
      "  " +:+ "StormEvents" +:+ tail /\
    external_table_rewrite "  StormEvents | where Source == 'StormEvents'"
        fresh =
      (Return ("  " +:+ external_table "StormEvents" +:+
               replace tail "StormEvents" (external_table "StormEvents")),
       fresh) /\
    requests (snd (execute_query_external_table (sdk := echo_sdk) emulator
                     "Contoso"
                     "  StormEvents | where Source == 'StormEvents'" fresh)) =
      [("Contoso",
        "  " +:+ external_table "StormEvents" +:+
        replace tail "StormEvents" (external_table "StormEvents"))].
Proof.
  apply (external_rewrite_wraps_leading_name (sdk := echo_sdk) emulator
           "Contoso" "  StormEvents | where Source == 'StormEvents'"
           "  StormEvents " [" where Source == 'StormEvents'"] fresh).
  - reflexivity.
  - reflexivity.
  - vm_compute. discriminate.
Defined.

Lemma external_rewrite_blank_name_witness :
  external_table_rewrite "  | take 5" fresh =
    (Return (replace_empty "  | take 5" (external_table "")), fresh) /\
  String.length (replace_empty "  | take 5" (external_table "")) =
    10 + 18 * (10 + 1).
Proof.
  exact (external_rewrite_blank_name "  " "| take 5" fresh eq_refl
           (or_intror eq_refl)).
Defined.

Lemma cli_main_connection_witness :
  cli_main (sdk := echo_sdk) (builders := blank_refusing)
    {| args_cluster := "https://cluster.kusto.windows.net";
       args_authority_id := Some "tenant";
       args_client_id := Some "app";
       args_client_secret := Some "secret" |} =
  Return {| list_tools := handle_list_tools;
            call_tool := handle_call_tool (sdk := echo_sdk)
              {| kcsb := with_aad_application_key_authentication
                           "https://cluster.kusto.windows.net"
                           "app" "secret" "tenant" |} |} /\
  cli_main (sdk := echo_sdk) (builders := blank_refusing)
    {| args_cluster := "https://cluster.kusto.windows.net";
       args_authority_id := Some "tenant";
       args_client_id := Some "";
       args_client_secret := Some "secret" |} =
  Raise (ValueError "Should not be empty") /\
  cli_main (sdk := echo_sdk) (builders := blank_refusing)
    {| args_cluster := "https://cluster.kusto.windows.net";
       args_authority_id := Some "tenant";
       args_client_id := None;
       args_client_secret := Some "secret" |} =
  Raise ConfigurationError.
Proof.
  split; [| split].
  - exact (proj1 (proj1 (proj2 (cli_main_connection (sdk := echo_sdk)
             (builders := blank_refusing)
             {| args_cluster := "https://cluster.kusto.windows.net";
                args_authority_id := Some "tenant";
                args_client_id := Some "app";
                args_client_secret := Some "secret" |}))
             eq_refl "app" "secret" "tenant" eq_refl eq_refl eq_refl)
             eq_refl).
  - exact (proj2 (proj1 (proj2 (cli_main_connection (sdk := echo_sdk)
             (builders := blank_refusing)
             {| args_cluster := "https://cluster.kusto.windows.net";
                args_authority_id := Some "tenant";
                args_client_id := Some "";
                args_client_secret := Some "secret" |}))
             eq_refl "" "secret" "tenant" eq_refl eq_refl eq_refl)
             (ValueError "Should not be empty") eq_refl).
  - exact (proj2 (proj2 (cli_main_connection (sdk := echo_sdk)
             (builders := blank_refusing)
             {| args_cluster := "https://cluster.kusto.windows.net";
                args_authority_id := Some "tenant";
                args_client_id := None;
                args_client_secret := Some "secret" |}))
             eq_refl (or_introl eq_refl)).
Defined.

Lemma guard_rejects_exactly_dot_queries_witness :
  fst (call (sdk := echo_sdk) emulator
         (ExecuteQueryExternalTable "Contoso" ".show tables") fresh) =
  Raise ForbiddenCommand /\
  fst (call (sdk := echo_sdk) emulator
         (RetrieveInternalTableSchema "Contoso" ".show tables") fresh) <>
  Raise ForbiddenCommand.
Proof.
  split.
  - apply (guard_rejects_exactly_dot_queries (sdk := echo_sdk)).
    exists "Contoso", ".show tables". split; [now right | reflexivity].
  - intros H.
    apply (guard_rejects_exactly_dot_queries (sdk := echo_sdk)) in H
      as (db & q & [H | H] & _); discriminate.
Defined.

(** ** The dispatcher on arguments of any type *)

Section AnyBehaviour.
Context {sdk : KustoSDK} {any_sdk : KustoAnySDK sdk}.

Lemma has_key_any_present (key : string) (v : value)
    (d : gmap string value) :
  d !! key = Some v -> has_key_any key (Some d) = true.
Proof. intros H. unfold has_key_any. apply bool_decide_eq_true_2. eauto. Qed.

Lemma has_key_any_absent (key : string) (d : gmap string value) :
  d !! key = None -> has_key_any key (Some d) = false.
Proof.
  intros H. unfold has_key_any. apply bool_decide_eq_false_2.
  rewrite H. now intros [v Hv].
Qed.

Lemma falsy_any_present (key : string) (v : value) (d : gmap string value) :
  d !! key = Some v -> falsy_any (Some d) = false.
Proof.
  intros H. unfold falsy_any. apply bool_decide_eq_false_2.
  intros ->. now rewrite lookup_empty in H.
Qed.

Lemma getitem_any_present (key : string) (v : value) (d : gmap string value)
    (w : World) :
  d !! key = Some v -> getitem_any (Some d) key w = (Return v, w).
Proof. intros H. unfold getitem_any. now rewrite H. Qed.

Lemma missing_database_any (arguments : AnyArguments) :
  arguments = None \/
  (exists d, arguments = Some d /\ d !! "database" = None) ->
  falsy_any arguments || negb (has_key_any "database" arguments) = true.
Proof.
  intros [-> | (d & -> & H)]; [reflexivity |].
  rewrite (has_key_any_absent _ _ H). apply orb_true_r.
Qed.

(** A body whose exceptions are logged and dropped returns. *)
Lemma try_except_logged_returns {A : Type} (body : M (option A))
    (label : string) (w : World) :
  exists results w',
    try_except body
      (fun e => logger_error (label +:+ exn_str e);; mret None) w =
    (Return results, w').
Proof.
  unfold try_except. destruct (body w) as [[results | e] w1];
    now eexists _, _.
Qed.

Lemma text_of_returned (m : M (option rows)) (w w' : World)
    (out : outcome (option rows)) :
  m w = (out, w') ->
  (results ← m; mret (Some (text_content results))) w =
  (match out with
   | Return results => Return (Some (text_content results))
   | Raise e => Raise e
   end, w').
Proof. intros H. unfold mbind, M_bind. rewrite H. now destruct out. Qed.

(** The two query methods on a query of any type. *)
Lemma execute_query_any_cases (self : KustoDatabase) (database query : value)
    (w : World) :
  let w1 := mkWorld (log w ++ [(DEBUG, "Executing query: " +:+
                                       value_str query)]) (requests w) in
  match query with
  | PyStr q =>
      if startswith q "." then
        execute_query_internal_table_any self database query w =
          (Raise ForbiddenCommand, w1) /\
        execute_query_external_table_any self database query w =
          (Raise ForbiddenCommand, w1)
      else
        (exists results w',
           execute_query_internal_table_any self database query w =
           (Return results, w')) /\
        (exists results w',
           execute_query_external_table_any self database query w =
           (Return results, w'))
  | PyOther type_name _ =>
      execute_query_internal_table_any self database query w =
        (Raise (AttributeError ("'" +:+ type_name +:+
                                "' object has no attribute 'startswith'")),
         w1) /\
      execute_query_external_table_any self database query w =
        (Raise (AttributeError ("'" +:+ type_name +:+
                                "' object has no attribute 'startswith'")),
         w1)
  end.
Proof.
  intros w1. subst w1.
  unfold execute_query_internal_table_any, execute_query_external_table_any.
  unfold mbind at 1 4. unfold M_bind at 1 4.
  unfold logger_debug, logger_emit. cbv beta iota.
  destruct query as [q | type_name text]; [| now split].
  destruct (startswith q "."); [now split |].
  split; apply try_except_logged_returns.
Qed.

Ltac enter_any Hdb :=
  unfold handle_call_tool_any;
  rewrite bool_decide_eq_true_2 by compute_done;
  rewrite (falsy_any_present _ _ _ Hdb), (has_key_any_present _ _ _ Hdb);
  cbv beta iota delta [negb orb];
  unfold mbind at 1; unfold M_bind at 1;
  rewrite (getitem_any_present _ _ _ _ Hdb);
  cbv beta iota delta [String.eqb Ascii.eqb Bool.eqb].

Ltac enter_any_branch Harg :=
  rewrite (has_key_any_present _ _ _ Harg); cbv beta iota delta [negb];
  unfold mbind at 1; unfold M_bind at 1;
  rewrite (getitem_any_present _ _ _ _ Harg); cbv beta iota.

Ltac any_returns w :=
  match goal with
  | |- context [try_except ?body (fun e => logger_error (?label +:+ exn_str e);;
                                           mret None)] =>
      let H := fresh "Hret" in
      destruct (try_except_logged_returns body label w) as (? & ? & H);
      rewrite (text_of_returned _ _ _ _ H)
  end.

(** The ways through [handle_call_tool] when the values can be of any
    type: the checks of the name and of the keys, the guard, the
    [AttributeError] of a query that is no [str], and the returns. *)
Lemma handle_call_tool_any_cases (self : KustoDatabase) (called : string)
    (arguments : AnyArguments) (w : World) :
  ((called ∉ tool_name_list) /\
   handle_call_tool_any self called arguments w =
   (Raise (UnknownOperation called), w)) \/
  (called ∈ tool_name_list /\
   (arguments = None \/
    exists d, arguments = Some d /\ d !! "database" = None) /\
   handle_call_tool_any self called arguments w =
   (Raise (MissingArgument "database"), w)) \/
  (exists d database,
     called ∈ tool_name_list /\
     arguments = Some d /\ d !! "database" = Some database /\
     (((called = "execute_query_internal_table" \/
        called = "execute_query_external_table") /\
       d !! "query" = None /\
       handle_call_tool_any self called arguments w =
       (Raise (MissingArgument "database or query"), w)) \/
      (called = "retrieve_external_table_schema" /\
       d !! "table" = None /\
       handle_call_tool_any self called arguments w =
       (Raise (MissingArgument "database or table"), w)) \/
      ((called = "execute_query_internal_table" \/
        called = "execute_query_external_table") /\
       exists query,
         d !! "query" = Some (PyStr query) /\
         startswith query "." = true /\
         handle_call_tool_any self called arguments w =
         (Raise ForbiddenCommand,
          mkWorld (log w ++ [(DEBUG, "Executing query: " +:+ query)])
                  (requests w))) \/
      ((called = "execute_query_internal_table" \/
        called = "execute_query_external_table") /\
       exists type_name text,
         d !! "query" = Some (PyOther type_name text) /\
         handle_call_tool_any self called arguments w =
         (Raise (AttributeError
                   ("'" +:+ type_name +:+
                    "' object has no attribute 'startswith'")),
          mkWorld (log w ++ [(DEBUG, "Executing query: " +:+ text)])
                  (requests w))) \/
      (exists returned w',
         handle_call_tool_any self called arguments w =
         (Return returned, w')))).
Proof.
  destruct (decide (called ∈ tool_name_list)) as [Hin | Hnin].
  2:{ left. split; [exact Hnin |]. unfold handle_call_tool_any.
      now rewrite (bool_decide_eq_false_2 _ Hnin). }
  right.
  assert (Hmissing :
    arguments = None \/
    (exists d, arguments = Some d /\ d !! "database" = None) ->
    handle_call_tool_any self called arguments w =
    (Raise (MissingArgument "database"), w)).
  { intros Ha. unfold handle_call_tool_any.
    rewrite (bool_decide_eq_true_2 _ Hin). simpl negb.
    now rewrite (missing_database_any _ Ha). }
  destruct arguments as [d |]; [| left; auto].
  destruct (d !! "database") as [database |] eqn:Hdb.
  2:{ left. split; [exact Hin |]. split; [| apply Hmissing]; eauto. }
  right. exists d, database.
  split; [exact Hin |]. split; [reflexivity |]. split; [exact Hdb |].
  assert (Hquery : forall m : value -> M (option rows),
    (forall query,
       match query with
       | PyStr q =>
           if startswith q "." then
             m query w =
             (Raise ForbiddenCommand,
              mkWorld (log w ++ [(DEBUG, "Executing query: " +:+
                                         value_str query)]) (requests w))
           else exists results w', m query w = (Return results, w')
       | PyOther type_name _ =>
           m query w =
           (Raise (AttributeError ("'" +:+ type_name +:+
                                   "' object has no attribute 'startswith'")),
            mkWorld (log w ++ [(DEBUG, "Executing query: " +:+
                                       value_str query)]) (requests w))
       end) ->
    forall called',
    (called' = "execute_query_internal_table" \/
     called' = "execute_query_external_table") ->
    forall out : outcome (option (list TextContent)) * World,
    out =
    (if negb (has_key_any "query" (Some d))
     then raise (ValueError "Missing database or query argument")
     else query ← getitem_any (Some d) "query";
          results ← m query;
          mret (Some (text_content results))) w ->
    ((called' = "execute_query_internal_table" \/
      called' = "execute_query_external_table") /\
     d !! "query" = None /\
     out = (Raise (MissingArgument "database or query"), w)) \/
    (called' = "retrieve_external_table_schema" /\
     d !! "table" = None /\
     out = (Raise (MissingArgument "database or table"), w)) \/
    ((called' = "execute_query_internal_table" \/
      called' = "execute_query_external_table") /\
     exists query,
       d !! "query" = Some (PyStr query) /\
       startswith query "." = true /\
       out =
       (Raise ForbiddenCommand,
        mkWorld (log w ++ [(DEBUG, "Executing query: " +:+ query)])
                (requests w))) \/
    ((called' = "execute_query_internal_table" \/
      called' = "execute_query_external_table") /\
     exists type_name text,
       d !! "query" = Some (PyOther type_name text) /\
       out =
       (Raise (AttributeError
                 ("'" +:+ type_name +:+
                  "' object has no attribute 'startswith'")),
        mkWorld (log w ++ [(DEBUG, "Executing query: " +:+ text)])
                (requests w))) \/
    (exists returned w', out = (Return returned, w'))).
  { intros m Hm called' Hc out Hout.
    destruct (d !! "query") as [query |] eqn:Hq.
    - rewrite (has_key_any_present _ _ _ Hq) in Hout.
      cbv beta iota delta [negb] in Hout.
      unfold mbind at 1 in Hout. unfold M_bind at 1 in Hout.
      rewrite (getitem_any_present _ _ _ _ Hq) in Hout.
      cbv beta iota in Hout. specialize (Hm query).
      destruct query as [q | type_name text].
      + destruct (startswith q ".") eqn:Hdot.
        * rewrite (text_of_returned _ _ _ _ Hm) in Hout.
          do 2 right. left. split; [exact Hc |]. exists q.
          split; [reflexivity |]. split; [exact Hdot |]. exact Hout.
        * destruct Hm as (r & w' & Hm).
          rewrite (text_of_returned _ _ _ _ Hm) in Hout.
          do 4 right. eexists _, _. exact Hout.
      + rewrite (text_of_returned _ _ _ _ Hm) in Hout.
        do 3 right. left. split; [exact Hc |]. exists type_name, text.
        split; [reflexivity |]. exact Hout.
    - rewrite (has_key_any_absent _ _ Hq) in Hout.
      left. split; [exact Hc |]. split; [reflexivity |]. exact Hout. }
  unfold tool_name_list in Hin. simpl in Hin.
  repeat (apply elem_of_cons in Hin as [-> | Hin]).
  - do 4 right. enter_any Hdb. unfold list_internal_tables_any.
    any_returns w. now eexists _, _.
  - do 4 right. enter_any Hdb. unfold list_external_tables_any.
    any_returns w. now eexists _, _.
  - do 4 right. enter_any Hdb. unfold list_materialized_views_any.
    any_returns w. now eexists _, _.
  - apply (Hquery (execute_query_internal_table_any self database));
      [| now left | now enter_any Hdb].
    intros query.
    pose proof (execute_query_any_cases self database query w) as H.
    cbv zeta in H. destruct query as [q | ? ?]; [| apply H].
    destruct (startswith q "."); apply H.
  - apply (Hquery (execute_query_external_table_any self database));
      [| now right | now enter_any Hdb].
    intros query.
    pose proof (execute_query_any_cases self database query w) as H.
    cbv zeta in H. destruct query as [q | ? ?]; [| apply H].
    destruct (startswith q "."); apply H.
  - do 4 right. enter_any Hdb. now eexists _, _.
  - destruct (d !! "table") as [table |] eqn:Ht.
    + do 4 right. enter_any Hdb. enter_any_branch Ht.
      unfold retrieve_external_table_schema_any.
      any_returns w. now eexists _, _.
    + right. left. split; [reflexivity |]. split; [reflexivity |].
      enter_any Hdb. now rewrite (has_key_any_absent _ _ Ht).
  - now apply elem_of_nil in Hin.
Qed.

(** On arguments whose values are all [str], the dispatcher over values of
    any type is the dispatcher over strings. *)
Lemma handle_call_tool_any_on_str (self : KustoDatabase) (called : string)
    (arguments : option (gmap string string)) (w : World) :
  handle_call_tool_any self called
    (fmap (M := option) (fmap (M := gmap string) PyStr) arguments) w =
  handle_call_tool self called arguments w.
Proof.
  unfold handle_call_tool_any, handle_call_tool.
  destruct (bool_decide (called ∈ tool_name_list)); [| reflexivity].
  destruct arguments as [d |]; [| reflexivity].
  change (fmap (M := option) (fmap (M := gmap string) PyStr) (Some d))
    with (Some (PyStr <$> d)).
  assert (Hfalsy : falsy_any (Some (PyStr <$> d)) = falsy (Some d)).
  { unfold falsy_any, falsy. apply bool_decide_ext.
    apply fmap_empty_iff. }
  assert (Hkey : forall k,
    has_key_any k (Some (PyStr <$> d)) = has_key k (Some d)).
  { intros k. unfold has_key_any, has_key. apply bool_decide_ext.
    rewrite lookup_fmap. apply fmap_is_Some. }
  assert (Hget : forall k (f : value -> M (option (list TextContent)))
                        (g : string -> M (option (list TextContent))),
    (forall v w0, f (PyStr v) w0 = g v w0) ->
    forall w0,
    (x ← getitem_any (Some (PyStr <$> d)) k; f x) w0 =
    (x ← getitem (Some d) k; g x) w0).
  { intros k f g Hfg w0. unfold mbind, M_bind, getitem_any, getitem.
    rewrite lookup_fmap. destruct (d !! k) as [v |]; simpl; [| reflexivity].
    now rewrite Hfg. }
  rewrite Hfalsy, !Hkey. simpl negb.
  destruct (falsy (Some d) || negb (has_key "database" (Some d)));
    [reflexivity |].
  apply Hget. intros database w0.
  repeat match goal with
         | |- context [String.eqb called ?n] =>
             destruct (String.eqb called n)
         end;
    try reflexivity;
    match goal with
    | |- context [has_key ?k (Some d)] =>
        destruct (has_key k (Some d)); [| reflexivity]
    end;
    apply Hget; reflexivity.
Qed.

(** X2: an exception that leaves [handle_call_tool] is one of the
    [ValueError]s the server raises itself, or the [AttributeError] of
    [query.startswith] on a [query] that is no [str]; no [KeyError],
    [TypeError] or [IndexError] and nothing from the service leaves it, and
    no request was issued when it is raised. *)
Theorem handle_call_tool_any_raises_only (self : KustoDatabase)
    (called : string) (arguments : AnyArguments) (w : World) (e : exn) :
  fst (handle_call_tool_any self called arguments w) = Raise e ->
  (e = UnknownOperation called \/
   e = MissingArgument "database" \/
   e = MissingArgument "database or query" \/
   e = MissingArgument "database or table" \/
   e = ForbiddenCommand \/
   exists d type_name text,
     arguments = Some d /\
     d !! "query" = Some (PyOther type_name text) /\
     e = AttributeError ("'" +:+ type_name +:+
                         "' object has no attribute 'startswith'")) /\
  requests (snd (handle_call_tool_any self called arguments w)) = requests w.
Proof.
  destruct (handle_call_tool_any_cases self called arguments w)
    as [(_ & ->) | [(_ & _ & ->) | (d & db & _ & -> & _ &
         [(_ & _ & ->) | [(_ & _ & ->) |
          [(_ & q & _ & _ & ->) | [(_ & ty & text & Hq & ->) |
           (r & w' & ->)]]]])]];
    simpl; try (intros [= <-]; split; [tauto | reflexivity]).
  - intros [= <-]. split; [| reflexivity].
    do 5 right. now exists d, ty, text.
  - discriminate.
Qed.

(** X6: the [required] lists of the catalogue, with a [str] for the query
    where there is one, are enough for the checks of the dispatcher: a call
    that names a tool of the catalogue, carries every argument that tool
    requires and gives a required [query] as a [str] is not refused for its
    name or its arguments; it returns, or the guard rejects its query. *)
Theorem required_str_arguments_suffice (self : KustoDatabase) (i : nat)
    (t : Tool) (d : gmap string value) (w : World) :
  tool_list !! i = Some t ->
  (forall k, k ∈ required (inputSchema t) -> is_Some (d !! k)) ->
  ("query" ∈ required (inputSchema t) ->
   exists query, d !! "query" = Some (PyStr query)) ->
  fst (handle_call_tool_any self (name t) (Some d) w) =
    Raise ForbiddenCommand \/
  exists returned,
    fst (handle_call_tool_any self (name t) (Some d) w) = Return returned.
Proof.
  intros Hi Hreq Hstr.
  assert (Hq : name t = "execute_query_internal_table" \/
               name t = "execute_query_external_table" ->
               "query" ∈ required (inputSchema t)).
  { do 7 (destruct i as [|i]; [injection Hi as <-; simpl;
                               intros [? | ?]; try discriminate;
                               compute_done |]).
    discriminate. }
  assert (Ht : name t = "retrieve_external_table_schema" ->
               is_Some (d !! "table")).
  { intros Hn. apply Hreq. revert Hn.
    do 7 (destruct i as [|i]; [injection Hi as <-; simpl;
                               intros ?; try discriminate;
                               compute_done |]).
    discriminate. }
  assert (Hdb : is_Some (d !! "database")).
  { apply Hreq.
    do 7 (destruct i as [|i]; [injection Hi as <-; compute_done |]).
    discriminate. }
  assert (Hin : name t ∈ tool_name_list).
  { unfold tool_name_list. apply list_elem_of_fmap. exists t.
    split; [reflexivity |]. now apply list_elem_of_lookup_2 with i. }
  destruct (handle_call_tool_any_cases self (name t) (Some d) w)
    as [(Hnin & _) | [(_ & [? | (d' & [= <-] & Hnone)] & _) |
         (d' & db & _ & [= <-] & _ &
          [(Hn & Hnone & _) | [(Hn & Hnone & _) |
           [(_ & q & _ & _ & ->) | [(Hn & ty & text & Hother & _) |
            (r & w' & ->)]]]])]].
  - contradiction.
  - discriminate.
  - rewrite Hnone in Hdb. now destruct Hdb.
  - apply Hq, Hreq in Hn. rewrite Hnone in Hn. now destruct Hn.
  - apply Ht in Hn. rewrite Hnone in Hn. now destruct Hn.
  - now left.
  - apply Hq, Hstr in Hn as [query Hn]. congruence.
  - right. now eexists.
Qed.

End AnyBehaviour.

Lemma handle_call_tool_any_raises_only_witness :
  (AttributeError "'int' object has no attribute 'startswith'" =
     UnknownOperation "execute_query_internal_table" \/
   AttributeError "'int' object has no attribute 'startswith'" =
     MissingArgument "database" \/
   AttributeError "'int' object has no attribute 'startswith'" =
     MissingArgument "database or query" \/
   AttributeError "'int' object has no attribute 'startswith'" =
     MissingArgument "database or table" \/
   AttributeError "'int' object has no attribute 'startswith'" =
     ForbiddenCommand \/
   exists (d : gmap string value) type_name text,
     Some {[ "database" := PyStr "Contoso"; "query" := PyOther "int" "5" ]} =
       Some d /\
     d !! "query" = Some (PyOther type_name text) /\
     AttributeError "'int' object has no attribute 'startswith'" =
     AttributeError ("'" +:+ type_name +:+
                     "' object has no attribute 'startswith'")) /\
  requests (snd (handle_call_tool_any (any_sdk := str_only) emulator
                   "execute_query_internal_table"
                   (Some {[ "database" := PyStr "Contoso";
                            "query" := PyOther "int" "5" ]}) fresh)) =
  requests fresh.
Proof.
  apply (handle_call_tool_any_raises_only (any_sdk := str_only)).
  vm_compute. reflexivity.
Defined.

Lemma required_str_arguments_suffice_witness :
  fst (handle_call_tool_any (any_sdk := str_only) emulator
         "execute_query_internal_table"
         (Some {[ "database" := PyOther "int" "7";
                  "query" := PyStr "StormEvents | take 1" ]})
         fresh) = Raise ForbiddenCommand \/
  exists returned,
    fst (handle_call_tool_any (any_sdk := str_only) emulator
           "execute_query_internal_table"
           (Some {[ "database" := PyOther "int" "7";
                    "query" := PyStr "StormEvents | take 1" ]})
           fresh) = Return returned.
Proof.
  apply (required_str_arguments_suffice (any_sdk := str_only) emulator 3
           {| name := "execute_query_internal_table";
              description :=
                "Execute a kql query to internal table or materialized view";
              inputSchema :=
                {| schema_type := "object";
                   properties := [("database", "string"); ("query", "string")];
                   required := ["database"; "query"] |} |}).
  - reflexivity.
  - intros k Hk. simpl in Hk.
    apply elem_of_cons in Hk as [-> | Hk]; [now eexists |].
    apply elem_of_cons in Hk as [-> | Hk]; [now eexists |].
    now apply elem_of_nil in Hk.
  - intros _. now exists "StormEvents | take 1".
Defined.
